(** * pi-sunrise-timelapse: the Bluesky publication pipeline

    A shallow embedding of the publication code of
    [main_timelapse_script.py]: the class [FixedBlueSkyClient]
    (session, PDS lookup, service tokens, video upload, job polling, post
    creation) and the method [SunriseTimelapse.post_to_bluesky] that drives
    it.

    Python values that come back from [response.json()] are modelled by
    [pyval]; the network, the file system and the library functions the code
    calls are gathered in an environment [env]; the code itself runs in a
    small state-and-exception monad whose state holds the attributes of the
    client object, a simulated clock and the trace of the effects performed
    so far (network requests, sleeps, printed and logged messages). *)

From Stdlib Require Import ZArith List String Ascii Bool Lia.
From Stdlib Require Import Init.Byte.
Import ListNotations.

Local Open Scope string_scope.
Local Open Scope Z_scope.

Set Warnings "-register-all".

(** ** Python values *)

(** The JSON fragment of Python's values.  A [PDict] lists the items of the
    dictionary; a key is looked up from the head of the list.  JSON floats
    do not occur in the protocol and are left out. *)
Inductive pyval : Type :=
| PNone
| PBool (b : bool)
| PInt (z : Z)
| PStr (s : string)
| PList (l : list pyval)
| PDict (d : list (string * pyval)).

(** Truth value of an object, as tested by [if x:] and [not x]. *)
Definition truthy (v : pyval) : bool :=
  match v with
  | PNone => false
  | PBool b => b
  | PInt z => negb (z =? 0)
  | PStr s => negb (s =? "")%string
  | PList l => match l with [] => false | _ => true end
  | PDict d => match d with [] => false | _ => true end
  end.

(** [v == "s"] for a string literal [s]. *)
Definition eq_str (v : pyval) (s : string) : bool :=
  match v with
  | PStr t => (t =? s)%string
  | _ => false
  end.

Fixpoint lookup (d : list (string * pyval)) (k : string) : option pyval :=
  match d with
  | [] => None
  | (k', v) :: d' => if (k' =? k)%string then Some v else lookup d' k
  end.

(** [k in d] for a dictionary [d]. *)
Definition has_key (d : list (string * pyval)) (k : string) : bool :=
  match lookup d k with Some _ => true | None => false end.

(** [d.get(k, default)] on the items of a dictionary. *)
Definition dict_get (d : list (string * pyval)) (k : string) (default : pyval)
  : pyval :=
  match lookup d k with Some v => v | None => default end.

(** [v.get(k, default)]: only dictionaries have a [get] method, on
    anything else the attribute lookup raises. *)
Definition py_get (v : pyval) (k : string) (default : pyval) : option pyval :=
  match v with
  | PDict d => Some (dict_get d k default)
  | _ => None
  end.

(** [v[k]] with a string key: [KeyError] on a missing key, [TypeError] on
    lists, strings and scalars. *)
Definition py_index (v : pyval) (k : string) : option pyval :=
  match v with
  | PDict d => lookup d k
  | _ => None
  end.

Fixpoint chars (s : string) : list pyval :=
  match s with
  | EmptyString => []
  | String c s' => PStr (String c EmptyString) :: chars s'
  end.

(** The elements a [for] loop visits: the elements of a list, the keys of a
    dictionary, the characters of a string; other values are not
    iterable. *)
Definition py_iter (v : pyval) : option (list pyval) :=
  match v with
  | PList l => Some l
  | PDict d => Some (map (fun kv => PStr (fst kv)) d)
  | PStr s => Some (chars s)
  | _ => None
  end.

(** ** Environment, effects and state *)

(** The HTTP requests of the pipeline, with the parts of each request that
    the code computes. *)
Inductive request : Type :=
| CreateSession (identifier password : string)
| GetDidDocument (did : pyval)
| GetServiceAuth (access_token : pyval) (aud lxm : string) (exp : Z)
| UploadVideo (service_auth : pyval) (encoded_did : string)
    (video_data : list byte)
| GetJobStatus (service_auth job_id : pyval)
| CreateRecord (access_token repo record : pyval).

(** What [requests.get] and [requests.post] give back: an exception
    (connection error, timeout) or a response with its status code and its
    body, [None] when [response.json()] raises on it. *)
Inductive response : Type :=
| ConnError
| Reply (status_code : Z) (body : option pyval).

(** Everything outside the program.  [http n r] answers request [r] when it
    is the [n]-th request of the run (counted from 0); [st_size] and
    [file_data] are the size and the contents of the video file ([None]: the
    call raises [OSError]); [netloc] is [urllib.parse.urlparse(_).netloc]
    ([None]: [ValueError]); [quote] is [urllib.parse.quote(_, safe='')];
    [isoformat] prints a Unix time the way
    [datetime.now(timezone.utc).isoformat().replace('+00:00', 'Z')] does. *)
Record env : Type := {
  http : nat -> request -> response;
  st_size : option Z;
  file_data : option (list byte);
  netloc : string -> option string;
  quote : string -> string;
  isoformat : Z -> string
}.

(** The lines the code prints or logs. *)
Inductive msg : Type :=
| SessionCreated (handle : pyval)
| LoginFailed (status : Z)
| SessionError
| NoPdsService
| DidDocumentFailed (status : Z)
| PdsDidError
| NoPdsDid
| UsingPdsDid (pds_did : string)
| GotServiceAuth
| ServiceAuthFailed (status : Z)
| ServiceAuthError
| WaitingForProcessing (job_id : pyval)
| JobStatus (state : pyval) (attempt : nat)
| ProcessingComplete
| CompleteWithoutBlob
| ProcessingFailed (error : pyval)
| BeingEncoded
| UnknownJobState (state : pyval)
| StatusCheckFailed (status : Z)
| ProcessingTimedOut
| WaitError
| GettingBlob (job_id : pyval)
| GotBlob (blob : pyval)
| NoBlobInJobStatus
| JobStatusFailed (status : Z)
| CompletedJobBlobError
| Uploading (did : pyval)
| FileSize (size : Z)
| UploadStatus (status : Z)
| NoBlobAfterProcessing
| NoJobId
| AlreadyUploaded
| NoBlobFromCompletedJob
| UnexpectedState (state : pyval)
| UploadFailed (status : Z)
| UploadError
| PostRecordBuilt (record : pyval)
| PostCreationFailed (status : Z)
| PostCreationError
| CredentialsNotConfigured
| LoggingIn
| VideoTooLarge (size : Z)
| UploadingVideo (size : Z)
| VideoUploadFailed
| CreatingPost
| Posted (uri : pyval)
| DirectLink
| NoDirectLink
| PostFailed
| PostingError.

Inductive event : Type :=
| Net (r : request)
| Sleep (seconds : Z)
| Log (m : msg).

(** The attributes of the client object, the number of requests sent, the
    clock (Unix time; only [time.sleep] advances it), and the trace of
    effects, most recent first. *)
Record state : Type := {
  self_access_token : pyval;
  self_did : pyval;
  self_handle : pyval;
  ncalls : nat;
  clock : Z;
  trace : list event
}.

(** ** The monad *)

Inductive outcome (A : Type) : Type :=
| Ret (a : A)
| Raise.
Arguments Ret {A} a.
Arguments Raise {A}.

Definition M (A : Type) : Type := state -> outcome A * state.

Definition ret {A} (a : A) : M A := fun s => (Ret a, s).

Definition raise {A} : M A := fun s => (Raise, s).

Definition bind {A B} (m : M A) (k : A -> M B) : M B :=
  fun s =>
    match m s with
    | (Ret a, s') => k a s'
    | (Raise, s') => (Raise, s')
    end.

(** [try: m except Exception: h].  The effects of [m] up to the exception
    stay. *)
Definition try_except {A} (m : M A) (h : M A) : M A :=
  fun s =>
    match m s with
    | (Ret a, s') => (Ret a, s')
    | (Raise, s') => h s'
    end.

Declare Scope monad_scope.
Delimit Scope monad_scope with monad.
Notation "x <- m ;; k" := (bind m (fun x => k))
  (at level 61, m at next level, right associativity) : monad_scope.
Notation "m ;; k" := (bind m (fun _ => k))
  (at level 61, right associativity) : monad_scope.
Local Open Scope monad_scope.

(** A pure operation that may raise. *)
Definition lift {A} (o : option A) : M A :=
  match o with Some a => ret a | None => raise end.

Definition emit (e : event) : M unit :=
  fun s =>
    (Ret tt,
     {| self_access_token := self_access_token s; self_did := self_did s;
        self_handle := self_handle s; ncalls := ncalls s; clock := clock s;
        trace := e :: trace s |}).

Definition log (m : msg) : M unit := emit (Log m).

(** [time.sleep(n)]. *)
Definition sleep (n : Z) : M unit :=
  fun s =>
    (Ret tt,
     {| self_access_token := self_access_token s; self_did := self_did s;
        self_handle := self_handle s; ncalls := ncalls s;
        clock := clock s + n; trace := Sleep n :: trace s |}).

(** [int(time.time())]. *)
Definition time_now : M Z := fun s => (Ret (clock s), s).

Definition get_access_token : M pyval :=
  fun s => (Ret (self_access_token s), s).
Definition get_did : M pyval := fun s => (Ret (self_did s), s).
Definition get_handle : M pyval := fun s => (Ret (self_handle s), s).

Definition set_access_token (v : pyval) : M unit :=
  fun s =>
    (Ret tt,
     {| self_access_token := v; self_did := self_did s;
        self_handle := self_handle s; ncalls := ncalls s; clock := clock s;
        trace := trace s |}).

Definition set_did (v : pyval) : M unit :=
  fun s =>
    (Ret tt,
     {| self_access_token := self_access_token s; self_did := v;
        self_handle := self_handle s; ncalls := ncalls s; clock := clock s;
        trace := trace s |}).

Definition set_handle (v : pyval) : M unit :=
  fun s =>
    (Ret tt,
     {| self_access_token := self_access_token s; self_did := self_did s;
        self_handle := v; ncalls := ncalls s; clock := clock s;
        trace := trace s |}).

(** [FixedBlueSkyClient()]: a client whose attributes are all [None]. *)
Definition new_client : M unit :=
  set_access_token PNone ;; set_did PNone ;; set_handle PNone.

Section Pipeline.

Variable E : env.

(** One HTTP request: recorded in the trace, answered by the environment. *)
Definition send (r : request) : M (Z * option pyval) :=
  fun s =>
    let s' :=
      {| self_access_token := self_access_token s; self_did := self_did s;
         self_handle := self_handle s; ncalls := S (ncalls s);
         clock := clock s; trace := Net r :: trace s |} in
    match http E (ncalls s) r with
    | ConnError => (Raise, s')
    | Reply code body => (Ret (code, body), s')
    end.

(** [response.json()]. *)
Definition json (resp : Z * option pyval) : M pyval := lift (snd resp).

(** ** FixedBlueSkyClient *)

(** [create_session] *)
Definition create_session (identifier password : string) : M bool :=
  try_except
    (resp <- send (CreateSession identifier password) ;;
     if fst resp =? 200 then
       data <- json resp ;;
       tok <- lift (py_index data "accessJwt") ;;
       set_access_token tok ;;
       d <- lift (py_index data "did") ;;
       set_did d ;;
       h <- lift (py_index data "handle") ;;
       set_handle h ;;
       log (SessionCreated h) ;;
       ret true
     else
       log (LoginFailed (fst resp)) ;;
       ret false)
    (log SessionError ;; ret false).

(** The body of the [for service in services] loop of [get_user_pds_did]:
    [Some (Some a)] when the loop returns [a], [Some None] when it runs to
    its end, [None] when it raises. *)
Fixpoint scan_services (services : list pyval) : option (option string) :=
  match services with
  | [] => Some None
  | service :: rest =>
      match py_get service "id" PNone with
      | None => None
      | Some id =>
          if eq_str id "#atproto_pds" then
            match py_get service "serviceEndpoint" (PStr "") with
            | None => None
            | Some pds_url =>
                if truthy pds_url then
                  match pds_url with
                  | PStr u =>
                      match netloc E u with
                      | Some host => Some (Some ("did:web:" ++ host))
                      | None => None
                      end
                  | _ => None
                  end
                else scan_services rest
            end
          else scan_services rest
      end
  end.

(** [get_user_pds_did] *)
Definition get_user_pds_did : M (option string) :=
  try_except
    (d <- get_did ;;
     resp <- send (GetDidDocument d) ;;
     if fst resp =? 200 then
       did_doc <- json resp ;;
       services <- lift (py_get did_doc "service" (PList [])) ;;
       items <- lift (py_iter services) ;;
       found <- lift (scan_services items) ;;
       match found with
       | Some pds_did => ret (Some pds_did)
       | None => log NoPdsService ;; ret None
       end
     else
       log (DidDocumentFailed (fst resp)) ;;
       ret None)
    (log PdsDidError ;; ret None).

(** [get_service_auth] *)
Definition get_service_auth : M pyval :=
  try_except
    (pds <- get_user_pds_did ;;
     match pds with
     | None => log NoPdsDid ;; ret PNone
     | Some pds_did =>
         log (UsingPdsDid pds_did) ;;
         tok <- get_access_token ;;
         now <- time_now ;;
         resp <- send (GetServiceAuth tok pds_did
                         "com.atproto.repo.uploadBlob" (now + 1800)) ;;
         if fst resp =? 200 then
           body <- json resp ;;
           service_auth <- lift (py_index body "token") ;;
           log GotServiceAuth ;;
           ret service_auth
         else
           log (ServiceAuthFailed (fst resp)) ;;
           ret PNone
     end)
    (log ServiceAuthError ;; ret PNone).

(** One pass through the body of the [for attempt in range(max_attempts)]
    loop of [wait_for_video_processing]: [Some r] when the body returns [r]
    from the function, [None] when it reaches [continue]. *)
Definition poll_attempt (service_auth job_id : pyval) (attempt : nat)
  : M (option pyval) :=
  resp <- send (GetJobStatus service_auth job_id) ;;
  if fst resp =? 200 then
    job_status_response <- json resp ;;
    job_status <- lift (py_get job_status_response "jobStatus" (PDict [])) ;;
    state <- lift (py_get job_status "state" PNone) ;;
    log (JobStatus state (attempt + 1)) ;;
    if eq_str state "JOB_STATE_COMPLETED" then
      blob_ref <- lift (py_get job_status "blob" PNone) ;;
      if truthy blob_ref then
        log ProcessingComplete ;;
        ret (Some blob_ref)
      else
        log CompleteWithoutBlob ;;
        ret (Some PNone)
    else if eq_str state "JOB_STATE_FAILED" then
      error <- lift (py_get job_status "error" (PStr "Unknown error")) ;;
      log (ProcessingFailed error) ;;
      ret (Some PNone)
    else if eq_str state "JOB_STATE_CREATED"
            || eq_str state "JOB_STATE_RUNNING"
            || eq_str state "JOB_STATE_ENCODING" then
      (if eq_str state "JOB_STATE_ENCODING" then log BeingEncoded
       else ret tt) ;;
      sleep 10 ;;
      ret None
    else
      log (UnknownJobState state) ;;
      sleep 10 ;;
      ret None
  else
    log (StatusCheckFailed (fst resp)) ;;
    sleep 10 ;;
    ret None.

(** The loop itself, with [remaining] passes left, the next one numbered
    [attempt]: [Some r] when a pass returns [r], [None] when the range is
    used up. *)
Fixpoint poll_loop (service_auth job_id : pyval) (remaining attempt : nat)
  : M (option pyval) :=
  match remaining with
  | O => ret None
  | S n =>
      r <- poll_attempt service_auth job_id attempt ;;
      match r with
      | Some v => ret (Some v)
      | None => poll_loop service_auth job_id n (S attempt)
      end
  end.

Definition max_attempts : nat := 30.

(** [wait_for_video_processing] *)
Definition wait_for_video_processing (job_id : pyval) : M pyval :=
  try_except
    (log (WaitingForProcessing job_id) ;;
     service_auth <- get_service_auth ;;
     if negb (truthy service_auth) then ret PNone
     else
       r <- poll_loop service_auth job_id max_attempts 0 ;;
       match r with
       | Some v => ret v
       | None => log ProcessingTimedOut ;; ret PNone
       end)
    (log WaitError ;; ret PNone).

(** [get_completed_job_blob] *)
Definition get_completed_job_blob (job_id : pyval) : M pyval :=
  try_except
    (log (GettingBlob job_id) ;;
     service_auth <- get_service_auth ;;
     if negb (truthy service_auth) then ret PNone
     else
       resp <- send (GetJobStatus service_auth job_id) ;;
       if fst resp =? 200 then
         job_status_response <- json resp ;;
         job_status <-
           lift (py_get job_status_response "jobStatus" (PDict [])) ;;
         blob_ref <- lift (py_get job_status "blob" PNone) ;;
         if truthy blob_ref then
           log (GotBlob blob_ref) ;;
           ret blob_ref
         else
           log NoBlobInJobStatus ;;
           ret PNone
       else
         log (JobStatusFailed (fst resp)) ;;
         ret PNone)
    (log CompletedJobBlobError ;; ret PNone).

(** The dictionary [upload_video] returns on success. *)
Definition video_result_of (blob_ref job_id : pyval)
  : list (string * pyval) :=
  [("blob", blob_ref); ("jobId", job_id); ("state", PStr "completed")].

(** [upload_video].  The result is the returned dictionary, or [None]. *)
Definition upload_video : M (option (list (string * pyval))) :=
  try_except
    (service_auth <- get_service_auth ;;
     if negb (truthy service_auth) then ret None
     else
       d <- get_did ;;
       log (Uploading d) ;;
       file_size <- lift (st_size E) ;;
       log (FileSize file_size) ;;
       video_data <- lift (file_data E) ;;
       encoded_did <-
         lift (match d with PStr u => Some (quote E u) | _ => None end) ;;
       resp <- send (UploadVideo service_auth encoded_did video_data) ;;
       log (UploadStatus (fst resp)) ;;
       if fst resp =? 200 then
         upload_result <- json resp ;;
         job_id <- lift (py_get upload_result "jobId" PNone) ;;
         if truthy job_id then
           blob_ref <- wait_for_video_processing job_id ;;
           if truthy blob_ref then
             ret (Some (video_result_of blob_ref job_id))
           else
             log NoBlobAfterProcessing ;;
             ret None
         else
           log NoJobId ;;
           ret None
       else if fst resp =? 409 then
         upload_result <- json resp ;;
         log AlreadyUploaded ;;
         job_id <- lift (py_get upload_result "jobId" PNone) ;;
         state <- lift (py_get upload_result "state" PNone) ;;
         if eq_str state "JOB_STATE_COMPLETED" && truthy job_id then
           blob_ref <- get_completed_job_blob job_id ;;
           if truthy blob_ref then
             ret (Some (video_result_of blob_ref job_id))
           else
             log NoBlobFromCompletedJob ;;
             ret None
         else
           log (UnexpectedState state) ;;
           ret None
       else
         log (UploadFailed (fst resp)) ;;
         ret None)
    (log UploadError ;; ret None).

(** The post record that [create_post_with_video] builds before it sends
    anything: the dictionary literal, then the two conditional
    assignments into [record["embed"]].  [created_at] is the timestamp
    string. *)
Definition build_record (text : string) (video_result : list (string * pyval))
    (alt_text : string) (created_at : string) : pyval :=
  let embed :=
    [("$type", PStr "app.bsky.embed.video");
     ("video", dict_get video_result "blob" PNone)] in
  let embed :=
    if truthy (PStr alt_text) then (embed ++ [("alt", PStr alt_text)])%list
    else embed in
  let embed :=
    if has_key video_result "aspectRatio" then
      (embed
         ++ [("aspectRatio", dict_get video_result "aspectRatio" PNone)])%list
    else embed in
  PDict [("$type", PStr "app.bsky.feed.post");
         ("text", PStr text);
         ("createdAt", PStr created_at);
         ("embed", PDict embed)].

(** [create_post_with_video] *)
Definition create_post_with_video (text : string)
    (video_result : list (string * pyval)) (alt_text : string) : M pyval :=
  try_except
    (now <- time_now ;;
     let record := build_record text video_result alt_text (isoformat E now) in
     log (PostRecordBuilt record) ;;
     tok <- get_access_token ;;
     d <- get_did ;;
     resp <- send (CreateRecord tok d record) ;;
     if fst resp =? 200 then
       result <- json resp ;;
       ret result
     else
       log (PostCreationFailed (fst resp)) ;;
       ret PNone)
    (log PostCreationError ;; ret PNone).

(** ** SunriseTimelapse.post_to_bluesky *)

(** [CONFIG['bluesky']]: the handle and the password, read from the
    process environment with the defaults ["handle.bsky.social"] and
    [""]. *)
Record bluesky_config : Type := {
  cfg_handle : string;
  cfg_password : string
}.

Definition newline : string := String (ascii_of_nat 10) EmptyString.

(** The size ceiling of [post_to_bluesky], in bytes.  The code computes
    [size_mb = st_size / (1024 * 1024)] in floating point and tests
    [size_mb > 50]; the division by a power of two is exact below 2^53 and
    monotone above, so the test is the integer comparison
    [st_size > 50 * 1024 * 1024]. *)
Definition size_ceiling : Z := 50 * (1024 * 1024).

(** [post_to_bluesky].  [sunrise_time] and [today] are the two formatted
    dates ([sunrise_time.strftime('%H:%M:%S')] and
    [date.today().strftime('%Y-%m-%d')]). *)
Definition post_to_bluesky (bluesky_config : bluesky_config)
    (description sunrise_time today : string) : M bool :=
  if (cfg_handle bluesky_config =? "handle.bsky.social")%string
     || (cfg_password bluesky_config =? "")%string then
    log CredentialsNotConfigured ;;
    ret false
  else
    try_except
      (new_client ;;
       log LoggingIn ;;
       logged_in <- create_session (cfg_handle bluesky_config)
                      (cfg_password bluesky_config) ;;
       if negb logged_in then ret false
       else
         size <- lift (st_size E) ;;
         if size_ceiling <? size then
           log (VideoTooLarge size) ;;
           ret false
         else
           log (UploadingVideo size) ;;
           video_result <- upload_video ;;
           match video_result with
           | None =>
               log VideoUploadFailed ;;
               ret false
           | Some video_result =>
               let description_with_date :=
                 (description ++ newline ++ newline ++ "Sunrise: "
                  ++ sunrise_time ++ " " ++ today)%string in
               log CreatingPost ;;
               post_result <- create_post_with_video description_with_date
                                video_result "Southampton sunrise timelapse" ;;
               if truthy post_result then
                 uri <- lift (py_get post_result "uri" (PStr "unknown")) ;;
                 log (Posted uri) ;;
                 h <- get_handle ;;
                 (if truthy h
                     && match py_index post_result "uri" with
                        | Some _ => true
                        | None => false
                        end
                  then
                    match py_index post_result "uri" with
                    | Some (PStr _) => log DirectLink
                    | _ => log NoDirectLink
                    end
                  else ret tt) ;;
                 ret true
               else
                 log PostFailed ;;
                 ret false
           end)
      (log PostingError ;; ret false).

End Pipeline.

(** The state a run starts from: no client yet, nothing sent, the clock at
    [t0]. *)
Definition initial_state (t0 : Z) : state :=
  {| self_access_token := PNone; self_did := PNone; self_handle := PNone;
     ncalls := 0; clock := t0; trace := [] |}.

(** ** Reading a trace *)

Definition is_net (e : event) : bool :=
  match e with Net _ => true | _ => false end.

Definition is_status_query (e : event) : bool :=
  match e with Net (GetJobStatus _ _) => true | _ => false end.

Definition is_directory_lookup (e : event) : bool :=
  match e with Net (GetDidDocument _) => true | _ => false end.

Definition is_token_request (e : event) : bool :=
  match e with Net (GetServiceAuth _ _ _ _) => true | _ => false end.

Definition is_create_record (e : event) : bool :=
  match e with Net (CreateRecord _ _ _) => true | _ => false end.

Definition is_sleep (e : event) : bool :=
  match e with Sleep _ => true | _ => false end.

Definition is_processing_failed (e : event) : bool :=
  match e with Log (ProcessingFailed _) => true | _ => false end.

(** A sleep of anything but ten seconds. *)
Definition is_other_sleep (e : event) : bool :=
  match e with Sleep n => negb (n =? 10) | _ => false end.

(** How many events of a kind a trace holds. *)
Fixpoint count (p : event -> bool) (t : list event) : nat :=
  match t with
  | [] => O
  | e :: t' => ((if p e then 1 else 0) + count p t')%nat
  end.

(** The effects of a trace other than printing and logging, most recent
    first. *)
Fixpoint effects (t : list event) : list event :=
  match t with
  | [] => []
  | Log _ :: t' => effects t'
  | e :: t' => e :: effects t'
  end.

Definition is_upload (e : event) : bool :=
  match e with Net (UploadVideo _ _ _) => true | _ => false end.

Definition is_create_session (e : event) : bool :=
  match e with Net (CreateSession _ _) => true | _ => false end.

(** The session a [createSession] answer grants: the three fields
    [create_session] reads, when the status is 200 and the body is a
    dictionary that has them all. *)
Definition session_of (r : response) : option (pyval * pyval * pyval) :=
  match r with
  | Reply code (Some (PDict d)) =>
      if code =? 200 then
        match lookup d "accessJwt", lookup d "did", lookup d "handle" with
        | Some tok, Some dd, Some h => Some (tok, dd, h)
        | _, _, _ => None
        end
      else None
  | _ => None
  end.

(** What the body of a status answer holds under [jobStatus], for a
    dictionary body whose [jobStatus] is a dictionary (an absent
    [jobStatus] counts as the empty dictionary, as [.get("jobStatus", {})]
    has it). *)
Definition job_status_of (r : response) : option (list (string * pyval)) :=
  match r with
  | Reply code (Some (PDict d)) =>
      if code =? 200 then
        match dict_get d "jobStatus" (PDict []) with
        | PDict js => Some js
        | _ => None
        end
      else None
  | _ => None
  end.

(** The client attributes are the same in two states. *)
Definition same_client (s s' : state) : Prop :=
  self_access_token s' = self_access_token s
  /\ self_did s' = self_did s
  /\ self_handle s' = self_handle s.

(** The [embed] dictionary of a post record. *)
Definition embed_of (record : pyval) : list (string * pyval) :=
  match py_index record "embed" with
  | Some (PDict e) => e
  | _ => []
  end.

(** ** Server behaviours *)

(** A service entry of an identity document that makes
    [get_user_pds_did] stop scanning: its [id] is ["#atproto_pds"] and its
    [serviceEndpoint] is not empty. *)
Definition has_pds_endpoint (service : pyval) : bool :=
  match service with
  | PDict d =>
      eq_str (dict_get d "id" PNone) "#atproto_pds"
      && truthy (dict_get d "serviceEndpoint" (PStr ""))
  | _ => false
  end.

(** The [state] a job-status body reports, when the body is a dictionary
    whose [jobStatus] is a dictionary. *)
Definition reported_state (body : pyval) : option pyval :=
  match body with
  | PDict d =>
      match dict_get d "jobStatus" (PDict []) with
      | PDict js => Some (dict_get js "state" PNone)
      | _ => None
      end
  | _ => None
  end.

(** An answer to a status query that reports no terminal state: an HTTP
    status other than 200, or a well-formed body whose state is neither
    [JOB_STATE_COMPLETED] nor [JOB_STATE_FAILED]. *)
Definition keeps_waiting (r : response) : bool :=
  match r with
  | ConnError => false
  | Reply code body =>
      if code =? 200 then
        match body with
        | Some b =>
            match reported_state b with
            | Some st =>
                negb (eq_str st "JOB_STATE_COMPLETED")
                && negb (eq_str st "JOB_STATE_FAILED")
            | None => false
            end
        | None => false
        end
      else true
  end.

(** An answer with an HTTP status other than 200. *)
Definition http_error (r : response) : bool :=
  match r with
  | ConnError => false
  | Reply code _ => negb (code =? 200)
  end.

(** An answer to a status query on which the body of the polling loop
    raises: no answer at all, or a 200 whose body is not JSON, is not a
    dictionary, or has a [jobStatus] that is not a dictionary. *)
Definition breaks_polling (r : response) : bool :=
  match r with
  | ConnError => true
  | Reply code body =>
      (code =? 200)
      && match body with
         | Some b =>
             match reported_state b with
             | Some _ => false
             | None => true
             end
         | None => true
         end
  end.

(** ** A sample server *)

Definition sample_session : pyval :=
  PDict [("accessJwt", PStr "jwt-1");
         ("did", PStr "did:plc:abc123");
         ("handle", PStr "dawn.bsky.social")].

Definition sample_did_document : pyval :=
  PDict [("id", PStr "did:plc:abc123");
         ("service",
          PList [PDict [("id", PStr "#atproto_pds");
                        ("type", PStr "AtprotoPersonalDataServer");
                        ("serviceEndpoint", PStr "https://pds.example.com")]])].

Definition sample_blob : pyval :=
  PDict [("$type", PStr "blob");
         ("ref", PDict [("$link", PStr "bafy123")]);
         ("mimeType", PStr "video/mp4");
         ("size", PInt 20971520)].

Definition job_status (state : string) (extra : list (string * pyval))
  : response :=
  Reply 200
    (Some (PDict [("jobStatus",
                   PDict (("jobId", PStr "job-1") :: ("state", PStr state)
                          :: extra))])).

(** A server that accepts the login, serves the identity document and the
    service tokens, answers the upload with [upload] and the [n]-th request
    of the run, when it is a status query, with [status n]. *)
Definition sample_http (upload : response) (status : nat -> response)
  : nat -> request -> response :=
  fun n r =>
    match r with
    | CreateSession _ _ => Reply 200 (Some sample_session)
    | GetDidDocument _ => Reply 200 (Some sample_did_document)
    | GetServiceAuth _ _ _ _ =>
        Reply 200 (Some (PDict [("token", PStr "service-token")]))
    | UploadVideo _ _ _ => upload
    | GetJobStatus _ _ => status n
    | CreateRecord _ _ _ =>
        Reply 200
          (Some (PDict [("uri",
                         PStr "at://did:plc:abc123/app.bsky.feed.post/xyz789");
                        ("cid", PStr "bafypost")]))
    end.

Definition sample_env (size : Z) (upload : response)
    (status : nat -> response) : env :=
  {| http := sample_http upload status;
     st_size := Some size;
     file_data := Some [];
     netloc := fun u => Some (substring 8 (String.length u - 8) u);
     quote := fun u => u;
     isoformat := fun _ => "2025-08-03T04:31:00.000000Z" |}.

Definition sample_config : bluesky_config :=
  {| cfg_handle := "dawn.bsky.social"; cfg_password := "app-password" |}.

Definition accepted : response :=
  Reply 200 (Some (PDict [("jobId", PStr "job-1")])).

Definition conflict (state : string) : response :=
  Reply 409 (Some (PDict [("jobId", PStr "job-1"); ("state", PStr state)])).

(** Status answers of a job that runs, encodes and completes: the polls are
    the requests 6, 7 and 8 of a run. *)
Definition completes (n : nat) : response :=
  match n with
  | 6%nat => job_status "JOB_STATE_RUNNING" []
  | 7%nat => job_status "JOB_STATE_ENCODING" []
  | _ => job_status "JOB_STATE_COMPLETED" [("blob", sample_blob)]
  end.

(** Status answers of a job that runs and then fails. *)
Definition fails (n : nat) : response :=
  match n with
  | 6%nat => job_status "JOB_STATE_RUNNING" []
  | _ => job_status "JOB_STATE_FAILED" [("error", PStr "transcode error")]
  end.

(** A job that never leaves [JOB_STATE_RUNNING]. *)
Definition never_ends (n : nat) : response := job_status "JOB_STATE_RUNNING" [].

(** A job that was completed before the upload was sent again. *)
Definition completed_already (n : nat) : response :=
  job_status "JOB_STATE_COMPLETED" [("blob", sample_blob)].

(** A video service that answers every status query with 503. *)
Definition unavailable (n : nat) : response := Reply 503 None.

(** The state of a client that has logged in on the sample server and has
    sent [n] requests. *)
Definition logged_in (n : nat) : state :=
  {| self_access_token := PStr "jwt-1"; self_did := PStr "did:plc:abc123";
     self_handle := PStr "dawn.bsky.social"; ncalls := n; clock := 1754195460;
     trace := [] |}.

(** ** SunriseTimelapse.cleanup_old_files *)

(** [s.endswith(suffix)]. *)
Definition ends_with (suffix s : string) : bool :=
  (String.length suffix <=? String.length s)%nat
  && (substring (String.length s - String.length suffix)
        (String.length suffix) s =? suffix)%string.

(** A file name against the pattern [pre*suf] of [Path.glob]: the name
    starts with [pre], ends with [suf], and the two do not overlap. *)
Definition glob_match (pre suf name : string) : bool :=
  (String.length pre + String.length suf <=? String.length name)%nat
  && prefix pre name && ends_with suf name.

(** [name.rfind('.')]. *)
Fixpoint rfind_dot (name : string) : option nat :=
  match name with
  | EmptyString => None
  | String c rest =>
      match rfind_dot rest with
      | Some i => Some (S i)
      | None => if Ascii.eqb c "."%char then Some O else None
      end
  end.

(** [Path.stem]: the name without its last suffix; a dot at the start or
    at the end of the name starts no suffix. *)
Definition stem (name : string) : string :=
  match rfind_dot name with
  | Some i =>
      if (0 <? i)%nat && (i <? String.length name - 1)%nat
      then substring 0 i name
      else name
  | None => name
  end.

(** [s.replace(old, '')] for a non-empty [old]: the occurrences of [old]
    are taken out from left to right; [skip] counts the characters of an
    occurrence still to be dropped. *)
Fixpoint remove_from (old s : string) (skip : nat) : string :=
  match s with
  | EmptyString => EmptyString
  | String c rest =>
      match skip with
      | S k => remove_from old rest k
      | O =>
          if prefix old s then remove_from old rest (String.length old - 1)
          else String c (remove_from old rest O)
      end
  end.

Definition remove_all (old s : string) : string := remove_from old s O.

(** [CONFIG['cleanup']]. *)
Record cleanup_config : Type := {
  auto_cleanup : bool;
  keep_days : Z
}.

(** What the clean-up takes from outside: [date_today] is [date.today()] and
    [strptime s] is [datetime.strptime(s, '%Y-%m-%d').date()], both as day
    numbers ([None]: [ValueError]); [raw_unlink_fails] and
    [video_unlink_fails] tell for which names of the two directories
    [unlink] raises [OSError]. *)
Record cleanup_env : Type := {
  date_today : Z;
  strptime : string -> option Z;
  raw_unlink_fails : string -> bool;
  video_unlink_fails : string -> bool
}.

(** The names in the raw directory and in the video directory. *)
Record directories : Type := {
  raw_dir : list string;
  video_dir : list string
}.

Inductive cleanup_msg : Type :=
| CleaningUp (days : Z)
| RemovedRawVideo (name : string)
| RemovedPhoto (name : string)
| RemovedVideo (name : string)
| CleanupComplete (removed_raw removed_videos : nat).

(** One directory while a loop of the clean-up runs over it: its names,
    the counter of the loop and the lines logged, most recent first. *)
Record sweep_state : Type := {
  entries : list string;
  removed : nat;
  lines : list cleanup_msg
}.

(** [item.unlink()]: [OSError] when the environment says so or the name is
    not there; otherwise the name leaves the directory. *)
Definition unlink (fails : string -> bool) (item : string)
    (names : list string) : option (list string) :=
  if fails item || negb (existsb (String.eqb item) names) then None
  else Some (filter (fun n => negb (n =? item)%string) names).

(** One [for item in dir.glob(...)] loop over the names [items] the glob
    yielded.  A name whose date does not parse is skipped ([except
    ValueError: pass]); an [OSError] of [unlink] ends the loop and the
    function. *)
Fixpoint sweep (C : cleanup_env) (fails : string -> bool) (pre : string)
    (line : string -> cleanup_msg) (cutoff_date : Z) (items : list string)
    (st : sweep_state) : outcome unit * sweep_state :=
  match items with
  | [] => (Ret tt, st)
  | item :: rest =>
      let date_str := remove_all pre (stem item) in
      match strptime C date_str with
      | None => sweep C fails pre line cutoff_date rest st
      | Some item_date =>
          if item_date <? cutoff_date then
            match unlink fails item (entries st) with
            | None => (Raise, st)
            | Some names =>
                sweep C fails pre line cutoff_date rest
                  {| entries := names; removed := S (removed st);
                     lines := line item :: lines st |}
            end
          else sweep C fails pre line cutoff_date rest st
      end
  end.

(** [day - datetime.timedelta(days=d)] on day numbers: [timedelta] takes
    at most 999999999 days either way, and a date lies between 0001-01-01
    (day 1) and 9999-12-31 (day 3652059); [None]: [OverflowError]. *)
Definition date_minus_days (day d : Z) : option Z :=
  if (Z.abs d <=? 999999999) && (1 <=? day - d) && (day - d <=? 3652059)
  then Some (day - d)
  else None.

(** [cleanup_old_files]: the outcome, the two directories afterwards and
    the lines logged, most recent first.  The cut-off date is computed
    before the first line is logged; its [OverflowError] is not caught. *)
Definition cleanup_old_files (C : cleanup_env) (cfg : cleanup_config)
    (dirs : directories) : outcome unit * directories * list cleanup_msg :=
  if negb (auto_cleanup cfg) then (Ret tt, dirs, [])
  else
  match date_minus_days (date_today C) (keep_days cfg) with
  | None => (Raise, dirs, [])
  | Some cutoff_date =>
    let log0 := [CleaningUp (keep_days cfg)] in
    match
      sweep C (raw_unlink_fails C) "sunrise_raw_" RemovedRawVideo cutoff_date
        (filter (glob_match "sunrise_raw_" ".h264") (raw_dir dirs))
        {| entries := raw_dir dirs; removed := O; lines := log0 |}
    with
    | (Raise, raw1) =>
        (Raise, {| raw_dir := entries raw1; video_dir := video_dir dirs |},
         lines raw1)
    | (Ret _, raw1) =>
        match
          sweep C (raw_unlink_fails C) "analysis_photo_" RemovedPhoto
            cutoff_date
            (filter (glob_match "analysis_photo_" ".jpg") (entries raw1))
            {| entries := entries raw1; removed := O; lines := lines raw1 |}
        with
        | (Raise, raw2) =>
            (Raise,
             {| raw_dir := entries raw2; video_dir := video_dir dirs |},
             lines raw2)
        | (Ret _, raw2) =>
            match
              sweep C (video_unlink_fails C) "sunrise_" RemovedVideo
                cutoff_date
                (filter (glob_match "sunrise_" ".mp4") (video_dir dirs))
                {| entries := video_dir dirs; removed := O;
                   lines := lines raw2 |}
            with
            | (Raise, vid) =>
                (Raise,
                 {| raw_dir := entries raw2; video_dir := entries vid |},
                 lines vid)
            | (Ret _, vid) =>
                (Ret tt,
                 {| raw_dir := entries raw2; video_dir := entries vid |},
                 if (0 <? removed raw1)%nat || (0 <? removed vid)%nat
                 then CleanupComplete (removed raw1) (removed vid) :: lines vid
                 else lines vid)
            end
        end
    end
  end.

(** The date a loop of the clean-up reads in a name, and whether the loop
    takes the name for removal: the name matches the pattern and its date
    is earlier than [date_today - keep_days]. *)
Definition file_date (C : cleanup_env) (pre name : string) : option Z :=
  strptime C (remove_all pre (stem name)).

(** The test of a loop body on one name: its date parses and is earlier
    than the cut-off date. *)
Definition old_name (C : cleanup_env) (pre : string) (cutoff_date : Z)
    (name : string) : bool :=
  match file_date C pre name with
  | Some d => d <? cutoff_date
  | None => false
  end.

Definition stale (C : cleanup_env) (cfg : cleanup_config) (pre name : string)
  : bool :=
  old_name C pre (date_today C - keep_days cfg) name.

Definition expired (C : cleanup_env) (cfg : cleanup_config)
    (pre suf name : string) : bool :=
  glob_match pre suf name && stale C cfg pre name.

(** A calendar for the first days of August 2025. *)
Definition sample_strptime (s : string) : option Z :=
  if (s =? "2025-07-20")%string then Some 739452
  else if (s =? "2025-08-01")%string then Some 739464
  else if (s =? "2025-08-02")%string then Some 739465
  else if (s =? "2025-08-03")%string then Some 739466
  else if (s =? "2025-08-09")%string then Some 739472
  else if (s =? "2025-08-10")%string then Some 739473
  else None.

Definition sample_cleanup_env : cleanup_env :=
  {| date_today := 739473; strptime := sample_strptime;
     raw_unlink_fails := fun _ => false;
     video_unlink_fails := fun _ => false |}.

Definition sample_cleanup_config : cleanup_config :=
  {| auto_cleanup := true; keep_days := 7 |}.

Definition sample_directories : directories :=
  {| raw_dir := ["sunrise_raw_2025-08-01.h264"; "sunrise_raw_2025-08-09.h264";
                 "analysis_photo_2025-07-20.jpg"; "analysis_photo_2025-08-10.jpg";
                 "notes.txt"; "sunrise_raw_test.h264"];
     video_dir := ["sunrise_2025-08-02.mp4"; "sunrise_2025-08-03.mp4";
                   "sunrise_2025-08-10.mp4"; "sunrise_raw_2025-08-01.mp4";
                   "holiday_2025-07-20.mp4"] |}.

(** ** SunriseTimelapse.generate_ai_description *)

(** [v[0]]: the first element of a list, the first character of a string;
    [IndexError] on an empty one, [KeyError] on a dictionary (its keys are
    strings), [TypeError] on the rest. *)
Definition py_first (v : pyval) : option pyval :=
  match v with
  | PList (x :: _) => Some x
  | PStr (String c _) => Some (PStr (String c EmptyString))
  | _ => None
  end.

(** What the description step takes from outside: [image_data] is the
    contents of the photo ([None]: [open] or [read] raises); [b64encode] is
    [base64.b64encode(_).decode()]; [groq_http key url] is the answer to
    the chat request sent with the API key [key] and the image URL [url];
    [str_strip] is [str.strip]. *)
Record ai_env : Type := {
  image_data : option (list byte);
  b64encode : list byte -> string;
  groq_http : string -> string -> response;
  str_strip : string -> string
}.

Inductive ai_event : Type :=
| NoGroqKey
| SendingImage
| GroqRequest (key image_url : string)
| GroqDescription (description : string)
| GroqApiError (status : Z)
| GroqError.

Definition fallback_description : string := "Dawn in Southampton. Again.".

(** [result['choices'][0]['message']['content']]. *)
Definition chat_content (result : pyval) : option pyval :=
  match py_index result "choices" with
  | Some choices =>
      match py_first choices with
      | Some choice =>
          match py_index choice "message" with
          | Some message => py_index message "content"
          | None => None
          end
      | None => None
      end
  | None => None
  end.

(** [generate_ai_description]: the description and what was logged and
    sent, most recent first.  [groq_key] is [CONFIG.get('groq_api_key')]. *)
Definition generate_ai_description (A : ai_env) (groq_key : string)
  : string * list ai_event :=
  if (groq_key =? "")%string || (groq_key =? "api_key")%string then
    (fallback_description, [NoGroqKey])
  else
    match image_data A with
    | None => (fallback_description, [GroqError])
    | Some image =>
        let url := ("data:image/jpeg;base64," ++ b64encode A image)%string in
        let sent := [GroqRequest groq_key url; SendingImage] in
        match groq_http A groq_key url with
        | ConnError => (fallback_description, GroqError :: sent)
        | Reply code body =>
            if code =? 200 then
              match body with
              | Some result =>
                  match chat_content result with
                  | Some (PStr content) =>
                      (str_strip A content,
                       GroqDescription (str_strip A content) :: sent)
                  | _ => (fallback_description, GroqError :: sent)
                  end
              | None => (fallback_description, GroqError :: sent)
              end
            else (fallback_description, GroqApiError code :: sent)
        end
    end.

Definition is_groq_request (e : ai_event) : bool :=
  match e with GroqRequest _ _ => true | _ => false end.

(** ** main *)

(** The steps of [main] that drive the camera and ffmpeg, by what they
    give back: [capture_video] is the result of [capture_sunrise_video]
    (the path of the raw video, [None], or an exception);
    [timelapse_video raw] that of [create_timelapse_from_video];
    [final_exists] is [final_video_path.exists()]; [analysis_photo] is the
    result of [take_photo_after_video], which catches every exception;
    [sunrise_clock] and [today_date] are the two formatted dates that
    [post_to_bluesky] prints. *)
Record studio : Type := {
  capture_video : outcome (option string);
  timelapse_video : string -> outcome (option string);
  final_exists : bool;
  analysis_photo : option string;
  sunrise_clock : string;
  today_date : string
}.

Inductive main_msg : Type :=
| CaptureFailed
| PostingNow
| Success (final_video description : string)
| PostedToBluesky
| PostingFailedOrSkipped
| Completed
| ProcessingFailedMsg
| UnexpectedError.

Definition default_description : string :=
  "This morning in Southampton the weather is looking beautiful for this sunrise timelapse! 🌅".

(** What a run of [main] does after the camera and ffmpeg: the state of
    the Bluesky client, what the description step sent and logged, the two
    directories as [cleanup_old_files] left them ([None]: it was not
    called) with the lines it logged, and the lines of [main] itself, most
    recent first. *)
Record main_state : Type := {
  bluesky : state;
  ai_events : list ai_event;
  cleaned : option directories;
  cleanup_lines : list cleanup_msg;
  main_lines : list main_msg
}.

(** The body of [main] from the capture on.  [dirs] is what the two
    directories hold when [cleanup_old_files] is called, the files that the
    capture, ffmpeg and the photo step have written by then included; a
    run that does not get that far says nothing about the directories. *)
Definition main (W : studio) (E : env) (A : ai_env) (C : cleanup_env)
    (cfg : bluesky_config) (groq_key : string) (ccfg : cleanup_config)
    (dirs : directories) (s : state) : bool * main_state :=
  let untouched (lines_ : list main_msg) :=
    {| bluesky := s; ai_events := []; cleaned := None;
       cleanup_lines := []; main_lines := lines_ |} in
  match capture_video W with
  | Raise => (false, untouched [UnexpectedError])
  | Ret None => (false, untouched [CaptureFailed])
  | Ret (Some raw_video_path) =>
      match timelapse_video W raw_video_path with
      | Raise => (false, untouched [UnexpectedError])
      | Ret final =>
          match final with
          | Some final_video_path =>
              if final_exists W then
                let described :=
                  match analysis_photo W with
                  | Some _ => generate_ai_description A groq_key
                  | None => (default_description, [])
                  end in
                let description := fst described in
                match
                  post_to_bluesky E cfg description (sunrise_clock W)
                    (today_date W) s
                with
                | (Raise, s') =>
                    (false,
                     {| bluesky := s'; ai_events := snd described;
                        cleaned := None; cleanup_lines := [];
                        main_lines := [UnexpectedError; PostingNow] |})
                | (Ret posted, s') =>
                    match cleanup_old_files C ccfg dirs with
                    | (Raise, dirs', logged) =>
                        (false,
                         {| bluesky := s'; ai_events := snd described;
                            cleaned := Some dirs';
                            cleanup_lines := logged;
                            main_lines := [UnexpectedError; PostingNow] |})
                    | (Ret _, dirs', logged) =>
                        (true,
                         {| bluesky := s'; ai_events := snd described;
                            cleaned := Some dirs';
                            cleanup_lines := logged;
                            main_lines :=
                              [Completed;
                               if posted then PostedToBluesky
                               else PostingFailedOrSkipped;
                               Success final_video_path description;
                               PostingNow] |})
                    end
                end
              else (false, untouched [ProcessingFailedMsg])
          | None => (false, untouched [ProcessingFailedMsg])
          end
      end
  end.

(** A studio in which everything works, and a vision service that
    describes the weather. *)
Definition sample_studio : studio :=
  {| capture_video := Ret (Some "sunrise_raw_2025-08-10.h264");
     timelapse_video := fun _ => Ret (Some "sunrise_2025-08-10.mp4");
     final_exists := true;
     analysis_photo := Some "analysis_photo_2025-08-10.jpg";
     sunrise_clock := "04:31:00";
     today_date := "2025-08-10" |}.

Definition sample_ai_env : ai_env :=
  {| image_data := Some [];
     b64encode := fun _ => "";
     groq_http := fun _ _ =>
       Reply 200
         (Some (PDict
            [("choices",
              PList [PDict [("message",
                             PDict [("role", PStr "assistant");
                                    ("content",
                                     PStr "Dawn in Southampton and the weather is clear.")])]])]));
     str_strip := fun t => t |}.

(** ** Running the code symbolically *)

Ltac unfold_monad :=
  unfold json, new_client, log;
  unfold lift, bind, try_except, emit, sleep, time_now, get_access_token,
    get_did, get_handle, set_access_token, set_did, set_handle, send;
  unfold ret, raise.

(** Splits on the first scrutinee the goal is stuck on. *)
Ltac split_match :=
  match goal with
  | |- context [match ?x with _ => _ end] =>
      lazymatch x with
      | context [match _ with _ => _ end] => fail
      | _ => destruct x eqn:?
      end
  | |- context [if ?x then _ else _] =>
      lazymatch x with
      | context [if _ then _ else _] => fail
      | context [match _ with _ => _ end] => fail
      | _ => destruct x eqn:?
      end
  end.

Ltac red_state :=
  cbn [fst snd self_access_token self_did self_handle ncalls clock trace].

Ltac run := unfold_monad; red_state; repeat (split_match; red_state).

(** Finds the events added on top of a trace. *)
Lemma prefix_nil (base : list event) : base = ([] ++ base)%list.
Proof. reflexivity. Qed.

Lemma prefix_cons (e : event) (x t base : list event) :
  x = (t ++ base)%list -> e :: x = ((e :: t) ++ base)%list.
Proof. intros ->. reflexivity. Qed.

Lemma prefix_app (t1 x t base : list event) :
  x = (t ++ base)%list -> (t1 ++ x)%list = ((t1 ++ t) ++ base)%list.
Proof. intros ->. apply app_assoc. Qed.

Ltac prefix :=
  repeat first
    [ apply prefix_nil | eapply prefix_cons | eapply prefix_app ].

Lemma count_app (p : event -> bool) (t1 t2 : list event) :
  count p (t1 ++ t2) = (count p t1 + count p t2)%nat.
Proof. induction t1 as [|e t1 IH]; cbn; [reflexivity | rewrite IH; lia]. Qed.

Lemma effects_app (t1 t2 : list event) :
  effects (t1 ++ t2) = (effects t1 ++ effects t2)%list.
Proof.
  induction t1 as [|[r|n|m] t1 IH]; cbn; rewrite ?IH; reflexivity.
Qed.

Lemma count_effects (p : event -> bool) (t : list event) :
  (forall m, p (Log m) = false) -> count p (effects t) = count p t.
Proof.
  intros Hp.
  induction t as [|[r|n|m] t IH]; cbn; rewrite ?Hp, ?IH; reflexivity.
Qed.

Lemma count_in (p : event -> bool) (t : list event) (e : event) :
  In e t -> p e = true -> (0 < count p t)%nat.
Proof.
  induction t as [|e' t IH]; cbn; [tauto|].
  intros [->|Hin] Hp; [rewrite Hp; lia | specialize (IH Hin Hp); lia].
Qed.

Ltac norm_trace :=
  repeat first
    [ progress cbn
    | rewrite app_nil_r
    | rewrite count_app
    | rewrite effects_app ].

(** Closes a footprint goal once the code has been run. *)
Ltac footprint :=
  do 3 eexists; (split; [reflexivity|]); (split; [prefix|]);
  unfold same_client; red_state.

(** Replaces a call by what its footprint lemma says of it. *)
Ltac use_spec lem s :=
  let r := fresh "r" in
  let s' := fresh "s" in
  let t := fresh "t" in
  let Hrun := fresh "Hrun" in
  let Htr := fresh "Htr" in
  let Hsame := fresh "Hsame" in
  let Hfacts := fresh "Hfacts" in
  destruct (lem s) as (r & s' & t & Hrun & Htr & Hsame & Hfacts);
  rewrite Hrun; clear Hrun;
  destruct s' as [? ? ? ? ? ?];
  unfold same_client in Hsame;
  cbn [self_access_token self_did self_handle ncalls clock trace]
    in Htr, Hsame, Hfacts;
  destruct Hsame as (? & ? & ?);
  repeat match goal with H : _ /\ _ |- _ => destruct H end;
  subst.

(** A call that logged no processing failure, when it did not come back
    with the failure result. *)
Ltac no_failure :=
  repeat match goal with
    | H : count is_processing_failed ?t <> O -> _ = _ |- _ =>
        assert (count is_processing_failed t = O)
          by (destruct (count is_processing_failed t);
              [reflexivity | exfalso; discriminate H; lia]);
        clear H
    end.

Ltac conclude :=
  repeat match goal with |- _ /\ _ => split end;
  intros; subst; try discriminate; try reflexivity; try lia; auto;
  try match goal with
    | H : count is_processing_failed _ <> O -> _ = _ |- _ =>
        let K := fresh in
        assert (K := H ltac:(lia)); inversion K; subst; auto
    end;
  try match goal with
    | H : truthy PNone = true |- _ => discriminate H
    end.

Section Footprints.

Variable E : env.

(** *** get_user_pds_did *)

Lemma get_user_pds_did_spec (s : state) :
  exists r s' t,
    get_user_pds_did E s = (Ret r, s')
    /\ trace s' = (t ++ trace s)%list
    /\ same_client s s'
    /\ clock s' = clock s
    /\ ncalls s' = S (ncalls s)
    /\ effects t = [Net (GetDidDocument (self_did s))]
    /\ count is_processing_failed t = O.
Proof.
  unfold get_user_pds_did, same_client.
  run; footprint; cbn; auto 10.
Qed.

(** *** get_service_auth *)

Lemma get_service_auth_spec (s : state) :
  exists r s' t,
    get_service_auth E s = (Ret r, s')
    /\ trace s' = (t ++ trace s)%list
    /\ same_client s s'
    /\ clock s' = clock s
    /\ count is_directory_lookup t = 1%nat
    /\ (count is_token_request t <= 1)%nat
    /\ count is_status_query t = O
    /\ count is_create_record t = O
    /\ count is_sleep t = O
    /\ count is_other_sleep t = O
    /\ count is_processing_failed t = O
    /\ ((r = PNone /\ ncalls s' = S (ncalls s)
         /\ effects t = [Net (GetDidDocument (self_did s))])
        \/ (exists aud,
              ncalls s' = S (S (ncalls s))
              /\ effects t =
                   [Net (GetServiceAuth (self_access_token s) aud
                           "com.atproto.repo.uploadBlob" (clock s + 1800));
                    Net (GetDidDocument (self_did s))])).
Proof.
  unfold get_service_auth.
  unfold bind at 1. unfold try_except.
  destruct (get_user_pds_did_spec s)
    as (r & s1 & t & -> & Ht & (Ha & Hd & Hh) & Hc & Hn & He & Hp).
  destruct s1 as [a1 d1 h1 n1 c1 t1]; cbn in *; subst.
  assert (Hl : count is_directory_lookup t = 1%nat)
    by (now rewrite <- count_effects, He).
  assert (Hk : count is_token_request t = O)
    by (now rewrite <- count_effects, He).
  assert (Hq : count is_status_query t = O)
    by (now rewrite <- count_effects, He).
  assert (Hr : count is_create_record t = O)
    by (now rewrite <- count_effects, He).
  assert (Hs : count is_sleep t = O)
    by (now rewrite <- count_effects, He).
  assert (Ho : count is_other_sleep t = O)
    by (now rewrite <- count_effects, He).
  run; footprint; norm_trace;
    rewrite ?He, ?Hp, ?Hl, ?Hk, ?Hq, ?Hr, ?Hs, ?Ho; cbn;
    repeat match goal with |- _ /\ _ => split end; auto;
    solve [ left; auto | right; eexists; auto ].
Qed.

(** *** The polling loop *)

Lemma poll_attempt_spec (service_auth job_id : pyval) (attempt : nat)
    (s : state) :
  exists o s' t,
    poll_attempt E service_auth job_id attempt s = (o, s')
    /\ trace s' = (t ++ trace s)%list
    /\ same_client s s'
    /\ ncalls s' = S (ncalls s)
    /\ count is_directory_lookup t = O
    /\ count is_token_request t = O
    /\ count is_status_query t = 1%nat
    /\ count is_create_record t = O
    /\ count is_other_sleep t = O
    /\ (count is_processing_failed t <> O -> o = Ret (Some PNone))
    /\ (forall v, o = Ret (Some v) ->
          (v = PNone \/ truthy v = true) /\ count is_sleep t = O)
    /\ (o = Ret None ->
          effects t = [Sleep 10; Net (GetJobStatus service_auth job_id)]
          /\ clock s' = clock s + 10).
Proof.
  unfold poll_attempt.
  run; footprint; norm_trace;
    repeat split; try reflexivity; try congruence; try lia;
    intros; try discriminate; try congruence;
    repeat match goal with
      | H : Ret _ = Ret _ |- _ => inversion H; subst; clear H
      end; auto.
Qed.

Lemma poll_loop_spec (service_auth job_id : pyval) (remaining : nat) :
  forall (attempt : nat) (s : state),
  exists o s' t,
    poll_loop E service_auth job_id remaining attempt s = (o, s')
    /\ trace s' = (t ++ trace s)%list
    /\ same_client s s'
    /\ count is_directory_lookup t = O
    /\ count is_token_request t = O
    /\ (count is_status_query t <= remaining)%nat
    /\ count is_create_record t = O
    /\ count is_other_sleep t = O
    /\ (count is_processing_failed t <> O -> o = Ret (Some PNone))
    /\ (forall v, o = Ret (Some v) -> v = PNone \/ truthy v = true).
Proof.
  induction remaining as [|n IH]; intros attempt s.
  - exists (Ret None), s, []. cbn. unfold same_client.
    repeat split; auto; intros; try discriminate; lia.
  - cbn [poll_loop]. unfold bind at 1.
    destruct (poll_attempt_spec service_auth job_id attempt s)
      as (o & s1 & t1 & -> & Ht1 & (Ha & Hd & Hh) & _ & Hl & Hk & Hq & Hr
          & Ho & Hp & Hv & Hn).
    destruct o as [[v|]|].
    + exists (Ret (Some v)), s1, t1. unfold ret, same_client.
      destruct (Hv v eq_refl) as [Hv1 _].
      repeat split; auto; try lia.
      intros v' [= <-]. exact Hv1.
    + destruct (IH (S attempt) s1)
        as (o & s2 & t2 & -> & Ht2 & (Ha2 & Hd2 & Hh2) & Hl2 & Hk2 & Hq2
            & Hr2 & Ho2 & Hp2 & Hv2).
      exists o, s2, (t2 ++ t1)%list. unfold same_client.
      rewrite !count_app, Ht2, Ht1, app_assoc.
      repeat split; auto; try congruence; try lia.
      intros Hpf. apply Hp2. intros Hz. apply Hpf.
      assert (count is_processing_failed t1 = O); [|lia].
      destruct (count is_processing_failed t1) eqn:Hc; [reflexivity|].
      discriminate Hp. lia.
    + exists Raise, s1, t1. unfold same_client.
      repeat split; auto; try lia; try discriminate.
Qed.

(** *** wait_for_video_processing *)

Lemma wait_for_video_processing_spec (job_id : pyval) (s : state) :
  exists r s' t,
    wait_for_video_processing E job_id s = (Ret r, s')
    /\ trace s' = (t ++ trace s)%list
    /\ same_client s s'
    /\ count is_directory_lookup t = 1%nat
    /\ (count is_token_request t <= 1)%nat
    /\ (count is_status_query t <= max_attempts)%nat
    /\ count is_create_record t = O
    /\ count is_other_sleep t = O
    /\ (count is_processing_failed t <> O -> r = PNone)
    /\ (r = PNone \/ truthy r = true).
Proof.
  unfold wait_for_video_processing. unfold_monad. red_state.
  match goal with
  | |- context [get_service_auth E ?s0] => use_spec get_service_auth_spec s0
  end.
  match goal with H : _ \/ _ |- _ => clear H end.
  destruct (truthy r) eqn:Hr; cbn [negb].
  - match goal with
    | |- context [poll_loop E ?a ?j ?n ?k ?s0] =>
        destruct (poll_loop_spec a j n k s0)
          as (o & s2 & t2 & -> & Ht2 & (Ha2 & Hd2 & Hh2) & Hl2 & Hk2 & Hq2
              & Hr2 & Ho2 & Hp2 & Hv2)
    end.
    destruct s2 as [? ? ? ? ? ?]; cbn in Ht2, Ha2, Hd2, Hh2; subst.
    destruct o as [[v|]|]; no_failure; footprint; norm_trace; conclude.
  - footprint; norm_trace; conclude.
Qed.

(** *** get_completed_job_blob *)

Lemma get_completed_job_blob_spec (job_id : pyval) (s : state) :
  exists r s' t,
    get_completed_job_blob E job_id s = (Ret r, s')
    /\ trace s' = (t ++ trace s)%list
    /\ same_client s s'
    /\ count is_directory_lookup t = 1%nat
    /\ (count is_token_request t <= 1)%nat
    /\ (count is_status_query t <= 1)%nat
    /\ count is_create_record t = O
    /\ count is_sleep t = O
    /\ count is_other_sleep t = O
    /\ count is_processing_failed t = O
    /\ (r = PNone \/ truthy r = true)
    /\ (truthy r = true -> count is_status_query t = 1%nat).
Proof.
  unfold get_completed_job_blob. unfold_monad. red_state.
  match goal with
  | |- context [get_service_auth E ?s0] => use_spec get_service_auth_spec s0
  end.
  match goal with H : _ \/ _ |- _ => clear H end.
  run; footprint; norm_trace; conclude.
Qed.

(** *** upload_video *)

Lemma upload_video_spec (s : state) :
  exists r s' t,
    upload_video E s = (Ret r, s')
    /\ trace s' = (t ++ trace s)%list
    /\ same_client s s'
    /\ (1 <= count is_directory_lookup t <= 2)%nat
    /\ (count is_token_request t <= count is_directory_lookup t)%nat
    /\ (count is_status_query t <= max_attempts)%nat
    /\ count is_create_record t = O
    /\ count is_other_sleep t = O
    /\ (count is_processing_failed t <> O -> r = None).
Proof.
  unfold upload_video. unfold_monad. red_state.
  match goal with
  | |- context [get_service_auth E ?s0] => use_spec get_service_auth_spec s0
  end.
  match goal with H : _ \/ _ |- _ => clear H end.
  repeat first
    [ match goal with
      | |- context [wait_for_video_processing E ?j ?s0] =>
          use_spec (wait_for_video_processing_spec j) s0
      | |- context [get_completed_job_blob E ?j ?s0] =>
          use_spec (get_completed_job_blob_spec j) s0
      end
    | split_match; red_state ];
    no_failure; footprint; norm_trace; unfold max_attempts in *; conclude.
Qed.

(** *** create_session *)

Lemma create_session_spec (identifier password : string) (s : state) :
  exists r s' t,
    create_session E identifier password s = (Ret r, s')
    /\ trace s' = (t ++ trace s)%list
    /\ ncalls s' = S (ncalls s)
    /\ clock s' = clock s
    /\ effects t = [Net (CreateSession identifier password)]
    /\ count is_processing_failed t = O.
Proof.
  unfold create_session.
  run; do 3 eexists; (split; [reflexivity|]); (split; [prefix|]);
    norm_trace; conclude.
Qed.

(** *** create_post_with_video *)

Lemma create_post_with_video_spec (text : string)
    (video_result : list (string * pyval)) (alt_text : string) (s : state) :
  exists r s' t,
    create_post_with_video E text video_result alt_text s = (Ret r, s')
    /\ trace s' = (t ++ trace s)%list
    /\ same_client s s'
    /\ effects t =
         [Net (CreateRecord (self_access_token s) (self_did s)
                 (build_record text video_result alt_text
                    (isoformat E (clock s))))]
    /\ count is_processing_failed t = O.
Proof.
  unfold create_post_with_video.
  run; footprint; norm_trace; conclude.
Qed.

End Footprints.

(** ** The publish step without credentials *)

(** C10: when the configured handle is still the placeholder
    ["handle.bsky.social"] or the configured password is empty,
    [post_to_bluesky] returns [False] at once: it logs that the post is
    skipped and does nothing else, so no request is sent. *)
Theorem unconfigured_credentials_skip_post
    (E : env) (cfg : bluesky_config) (description sunrise_time today : string)
    (s : state) :
  cfg_handle cfg = "handle.bsky.social" \/ cfg_password cfg = "" ->
  exists s',
    post_to_bluesky E cfg description sunrise_time today s = (Ret false, s')
    /\ trace s' = Log CredentialsNotConfigured :: trace s
    /\ ncalls s' = ncalls s
    /\ count is_net (trace s') = count is_net (trace s).
Proof.
  intros H. unfold post_to_bluesky.
  assert (Hc : (cfg_handle cfg =? "handle.bsky.social")%string
               || (cfg_password cfg =? "")%string = true).
  { destruct H as [-> | ->]; [reflexivity | apply orb_true_r]. }
  rewrite Hc. unfold_monad. eexists. repeat split.
Qed.

Lemma unconfigured_credentials_skip_post_witness :
  exists s',
    post_to_bluesky (sample_env 20971520 accepted completes)
      {| cfg_handle := "handle.bsky.social"; cfg_password := "" |}
      "Dawn over the harbor" "04:31:00" "2025-08-03" (initial_state 0)
    = (Ret false, s')
    /\ trace s' = [Log CredentialsNotConfigured]
    /\ ncalls s' = O
    /\ count is_net (trace s') = O.
Proof.
  apply (unconfigured_credentials_skip_post
           (sample_env 20971520 accepted completes)
           {| cfg_handle := "handle.bsky.social"; cfg_password := "" |}
           "Dawn over the harbor" "04:31:00" "2025-08-03" (initial_state 0)).
  left. reflexivity.
Defined.

(** ** Composition of the post record *)

(** C6: the record [create_post_with_video] builds always carries the blob
    of the video result under [embed.video]; it has an [embed.alt] field,
    holding the alt text, exactly when the alt text is not empty; it has an
    [embed.aspectRatio] field exactly when the video result has one, with
    the same value.  Building the record is a pure computation: the one
    request of [create_post_with_video] is the [createRecord] call that
    submits the record already built. *)
Theorem composed_record_fields
    (text : string) (video_result : list (string * pyval))
    (alt_text created_at : string) :
  let embed := embed_of (build_record text video_result alt_text created_at) in
  lookup embed "video" = Some (dict_get video_result "blob" PNone)
  /\ lookup embed "alt"
       = (if (alt_text =? "")%string then None else Some (PStr alt_text))
  /\ (has_key embed "alt" = true <-> alt_text <> "")
  /\ lookup embed "aspectRatio" = lookup video_result "aspectRatio"
  /\ (has_key embed "aspectRatio" = true
       <-> has_key video_result "aspectRatio" = true)
  /\ (forall (E : env) (s : state),
        effects (trace (snd (create_post_with_video E text video_result
                               alt_text s)))
        = Net (CreateRecord (self_access_token s) (self_did s)
                 (build_record text video_result alt_text
                    (isoformat E (clock s))))
          :: effects (trace s)).
Proof.
  cbv zeta.
  assert (Hv : lookup
                 (embed_of (build_record text video_result alt_text created_at))
                 "video" = Some (dict_get video_result "blob" PNone)).
  { unfold build_record, embed_of, has_key. cbn.
    destruct (alt_text =? "")%string;
      destruct (lookup video_result "aspectRatio"); reflexivity. }
  assert (Ha : lookup
                 (embed_of (build_record text video_result alt_text created_at))
                 "alt"
               = (if (alt_text =? "")%string then None
                  else Some (PStr alt_text))).
  { unfold build_record, embed_of, has_key. cbn.
    destruct (alt_text =? "")%string;
      destruct (lookup video_result "aspectRatio"); reflexivity. }
  assert (Hr : lookup
                 (embed_of (build_record text video_result alt_text created_at))
                 "aspectRatio" = lookup video_result "aspectRatio").
  { unfold build_record, embed_of, has_key, dict_get. cbn.
    destruct (alt_text =? "")%string;
      destruct (lookup video_result "aspectRatio"); reflexivity. }
  split; [exact Hv|].
  split; [exact Ha|]. split.
  { unfold has_key. rewrite Ha.
    destruct (String.eqb_spec alt_text ""); split; congruence. }
  split; [exact Hr|]. split.
  { unfold has_key. rewrite Hr. tauto. }
  intros E s.
  destruct (create_post_with_video_spec E text video_result alt_text s)
    as (r & s' & t & Hrun & Ht & _ & He & _).
  rewrite Hrun. cbn [snd]. rewrite Ht, effects_app, He. reflexivity.
Qed.

(** ** The size ceiling *)

(** C1, as the specification states it, fails: with working credentials
    and a file one byte over the ceiling, [post_to_bluesky] has already
    sent the [createSession] request when it rejects the file. *)
Lemma oversize_video_is_rejected_after_login :
  let E := sample_env (size_ceiling + 1) accepted completes in
  let run :=
    post_to_bluesky E sample_config "Dawn over the harbor" "04:31:00"
      "2025-08-03" (initial_state 0) in
  st_size E = Some (size_ceiling + 1)
  /\ fst run = Ret false
  /\ rev (trace (snd run))
     = [Log LoggingIn;
        Net (CreateSession "dawn.bsky.social" "app-password");
        Log (SessionCreated (PStr "dawn.bsky.social"));
        Log (VideoTooLarge (size_ceiling + 1))]
  /\ count is_net (trace (snd run)) = 1%nat.
Proof. vm_compute. repeat split. Qed.

(** C1, amended: with credentials configured and a video file larger than
    the ceiling ([st_size > 50 * 1024 * 1024]), [post_to_bluesky] returns
    [False] having sent exactly one request, the [createSession] login: the
    size test runs after the login and before any directory lookup, token
    request or upload.  Unless the login itself failed, the last thing
    logged is the size error. *)
Theorem oversize_video_sends_only_login
    (E : env) (cfg : bluesky_config) (description sunrise_time today : string)
    (s : state) (size : Z) :
  cfg_handle cfg <> "handle.bsky.social" ->
  cfg_password cfg <> "" ->
  st_size E = Some size ->
  size_ceiling < size ->
  exists s',
    post_to_bluesky E cfg description sunrise_time today s = (Ret false, s')
    /\ effects (trace s')
       = Net (CreateSession (cfg_handle cfg) (cfg_password cfg))
         :: effects (trace s)
    /\ ncalls s' = S (ncalls s)
    /\ (hd_error (trace s') = Some (Log (VideoTooLarge size))
        \/ fst (create_session E (cfg_handle cfg) (cfg_password cfg)
                  (snd ((new_client ;; log LoggingIn) s))) = Ret false).
Proof.
  intros Hh Hp Hsize Hlt. unfold post_to_bluesky.
  apply String.eqb_neq in Hh, Hp. rewrite Hh, Hp. cbn [orb].
  apply Z.ltb_lt in Hlt.
  unfold_monad. red_state.
  match goal with
  | |- context [create_session E ?i ?p ?s0] =>
      destruct (create_session_spec E i p s0)
        as (r & s1 & t & Hrun & Ht & Hn & _ & He & _)
  end.
  rewrite Hrun. red_state. cbn [trace ncalls] in Ht, Hn.
  destruct r; cbn [negb]; rewrite ?Hsize, ?Hlt; red_state;
    (eexists; split; [reflexivity|]); red_state;
    rewrite Ht, Hn; norm_trace; rewrite He; repeat split; auto.
Qed.

Lemma oversize_video_sends_only_login_witness :
  exists s',
    post_to_bluesky (sample_env 60000000 accepted completes) sample_config
      "Dawn over the harbor" "04:31:00" "2025-08-03" (initial_state 0)
    = (Ret false, s')
    /\ effects (trace s')
       = Net (CreateSession (cfg_handle sample_config)
                (cfg_password sample_config))
         :: effects (trace (initial_state 0))
    /\ ncalls s' = S (ncalls (initial_state 0))
    /\ (hd_error (trace s') = Some (Log (VideoTooLarge 60000000))
        \/ fst (create_session (sample_env 60000000 accepted completes)
                  (cfg_handle sample_config) (cfg_password sample_config)
                  (snd ((new_client ;; log LoggingIn) (initial_state 0))))
           = Ret false).
Proof.
  apply (oversize_video_sends_only_login
           (sample_env 60000000 accepted completes) sample_config
           "Dawn over the harbor" "04:31:00" "2025-08-03" (initial_state 0)
           60000000).
  - discriminate.
  - discriminate.
  - reflexivity.
  - reflexivity.
Defined.

(** ** Resolution of the storage node *)

Lemma scan_services_netloc (E1 E2 : env) (services : list pyval) :
  netloc E1 = netloc E2 -> scan_services E1 services = scan_services E2 services.
Proof.
  intros Hn. induction services as [|sv rest IH]; cbn; [reflexivity|].
  rewrite Hn, IH. reflexivity.
Qed.

Lemma scan_services_without_endpoint (E : env) (services : list pyval) :
  (forall sv, In sv services -> has_pds_endpoint sv = false) ->
  scan_services E services = Some None \/ scan_services E services = None.
Proof.
  induction services as [|sv rest IH]; intros H; cbn; [auto|].
  assert (Hsv := H sv (or_introl eq_refl)).
  assert (IH' := IH (fun x Hx => H x (or_intror Hx))).
  destruct sv as [| | | | |d]; cbn; auto.
  cbn in Hsv.
  destruct (eq_str (dict_get d "id" PNone) "#atproto_pds"); [|exact IH'].
  cbn in Hsv. rewrite Hsv. exact IH'.
Qed.

(** C8: [get_user_pds_did] is deterministic given the identity document:
    two calls, in any two states and environments, to which the directory
    gives the same answer (under the same URL parser) return the same
    value.  And when the document's [service] list has no entry with the
    id ["#atproto_pds"] and a non-empty [serviceEndpoint], it returns
    [None], the failure result. *)
Theorem resolve_deterministic_and_needs_pds_entry :
  (forall (E1 E2 : env) (s1 s2 : state),
      netloc E1 = netloc E2 ->
      http E1 (ncalls s1) (GetDidDocument (self_did s1))
      = http E2 (ncalls s2) (GetDidDocument (self_did s2)) ->
      fst (get_user_pds_did E1 s1) = fst (get_user_pds_did E2 s2))
  /\ (forall (E : env) (s : state) (doc : list (string * pyval))
             (services : list pyval),
        http E (ncalls s) (GetDidDocument (self_did s))
        = Reply 200 (Some (PDict doc)) ->
        dict_get doc "service" (PList []) = PList services ->
        (forall sv, In sv services -> has_pds_endpoint sv = false) ->
        fst (get_user_pds_did E s) = Ret None).
Proof.
  split.
  - intros E1 E2 s1 s2 Hn Hh. unfold get_user_pds_did.
    unfold_monad. red_state. rewrite <- Hh.
    destruct (http E1 (ncalls s1) (GetDidDocument (self_did s1)))
      as [|code body]; red_state; [reflexivity|].
    destruct (code =? 200); red_state; [|reflexivity].
    destruct body as [did_doc|]; red_state; [|reflexivity].
    destruct (py_get did_doc "service" (PList [])) as [services|];
      red_state; [|reflexivity].
    destruct (py_iter services) as [items|]; red_state; [|reflexivity].
    rewrite (scan_services_netloc E1 E2 items Hn).
    destruct (scan_services E2 items) as [[pds_did|]|]; reflexivity.
  - intros E s doc services Hh Hs Hnone. unfold get_user_pds_did.
    unfold_monad. red_state. rewrite Hh. cbn. rewrite Hs. cbn.
    destruct (scan_services_without_endpoint E services Hnone) as [-> | ->];
      reflexivity.
Qed.

Lemma resolve_deterministic_and_needs_pds_entry_witness :
  fst (get_user_pds_did (sample_env 1 accepted completes) (logged_in 1))
  = fst (get_user_pds_did (sample_env 2 accepted fails) (logged_in 7))
  /\ fst (get_user_pds_did
            {| http := fun _ _ =>
                 Reply 200
                   (Some (PDict [("service",
                                  PList [PDict [("id", PStr "#atproto_labeler");
                                                ("serviceEndpoint",
                                                 PStr "https://mod.example.com")];
                                         PDict [("id", PStr "#atproto_pds");
                                                ("serviceEndpoint",
                                                 PStr "")]])]));
               st_size := None; file_data := None;
               netloc := fun u => Some u; quote := fun u => u;
               isoformat := fun _ => "" |}
            (logged_in 1))
     = Ret None.
Proof.
  split.
  - apply (proj1 resolve_deterministic_and_needs_pds_entry);
      reflexivity.
  - eapply (proj2 resolve_deterministic_and_needs_pds_entry).
    + reflexivity.
    + reflexivity.
    + cbn. intros sv [<- | [<- | []]]; reflexivity.
Defined.

(** ** The polling loop *)

Section Polling.

Variable E : env.
Variables service_auth job_id : pyval.

(** A pass that sees no terminal state: one status query, one sleep of ten
    seconds, and the loop goes on. *)
Lemma poll_attempt_waits (attempt : nat) (s : state) :
  keeps_waiting (http E (ncalls s) (GetJobStatus service_auth job_id)) = true ->
  exists s' t,
    poll_attempt E service_auth job_id attempt s = (Ret None, s')
    /\ trace s' = (t ++ trace s)%list
    /\ effects t = [Sleep 10; Net (GetJobStatus service_auth job_id)]
    /\ ncalls s' = S (ncalls s)
    /\ clock s' = clock s + 10
    /\ count is_processing_failed t = O.
Proof.
  intros H. unfold keeps_waiting in H.
  destruct (http E (ncalls s) (GetJobStatus service_auth job_id))
    as [|code body] eqn:Hh; [discriminate|].
  unfold poll_attempt. unfold_monad. red_state. rewrite Hh. red_state.
  destruct (code =? 200).
  - destruct body as [b|]; [|discriminate].
    unfold reported_state in H. destruct b as [| | | | |d]; try discriminate.
    cbn [py_get].
    destruct (dict_get d "jobStatus" (PDict [])) as [| | | | |js];
      try discriminate.
    cbn [py_get]. red_state.
    apply andb_true_iff in H. destruct H as [H1 H2].
    apply negb_true_iff in H1, H2. rewrite H1, H2.
    run; (do 2 eexists; split; [reflexivity|]; split; [prefix|]);
      norm_trace; conclude.
  - (do 2 eexists; split; [reflexivity|]; split; [prefix|]);
      norm_trace; conclude.
Qed.

(** When none of the next [remaining] answers is terminal, the loop uses
    up its range: [remaining] queries, [remaining] sleeps. *)
Lemma poll_loop_exhausts (remaining : nat) :
  forall (attempt : nat) (s : state),
    (forall i, (i < remaining)%nat ->
       keeps_waiting (http E (ncalls s + i) (GetJobStatus service_auth job_id))
       = true) ->
    exists s' t,
      poll_loop E service_auth job_id remaining attempt s = (Ret None, s')
      /\ trace s' = (t ++ trace s)%list
      /\ count is_status_query t = remaining
      /\ count is_sleep t = remaining
      /\ clock s' = clock s + 10 * Z.of_nat remaining
      /\ count is_processing_failed t = O.
Proof.
  induction remaining as [|n IH]; intros attempt s H.
  - exists s, []. cbn. repeat split. lia.
  - cbn [poll_loop]. unfold bind at 1.
    destruct (poll_attempt_waits attempt s)
      as (s1 & t1 & -> & Ht1 & He1 & Hn1 & Hc1 & Hp1).
    { rewrite <- (Nat.add_0_r (ncalls s)). apply H. lia. }
    destruct (IH (S attempt) s1) as (s2 & t2 & -> & Ht2 & Hq2 & Hs2 & Hc2 & Hp2).
    { intros i Hi. rewrite Hn1.
      replace (S (ncalls s) + i)%nat with (ncalls s + S i)%nat by lia.
      apply H. lia. }
    exists s2, (t2 ++ t1)%list.
    rewrite !count_app, Ht2, Ht1, app_assoc, Hq2, Hs2, Hp2, Hp1, Hc2, Hc1.
    rewrite <- (count_effects is_status_query t1) by reflexivity.
    rewrite <- (count_effects is_sleep t1) by reflexivity.
    rewrite He1. cbn [count is_status_query is_sleep].
    repeat split; lia.
Qed.

End Polling.

Lemma eq_str_true (v : pyval) (s : string) : eq_str v s = true -> v = PStr s.
Proof.
  destruct v; cbn; try discriminate.
  intros H. apply String.eqb_eq in H. now subst.
Qed.



Lemma only_ten_second_sleeps (t : list event) (n : Z) :
  count is_other_sleep t = O -> In (Sleep n) t -> n = 10.
Proof.
  intros Hc Hin. destruct (Z.eqb_spec n 10) as [|Hne]; [assumption|].
  assert (H : (0 < count is_other_sleep t)%nat).
  { apply (count_in _ _ (Sleep n) Hin). cbn.
    apply negb_true_iff. now apply Z.eqb_neq. }
  lia.
Qed.

(** What [wait_for_video_processing] does once the service token is there
    and none of the thirty answers is terminal. *)
Lemma wait_times_out (E : env) (job_id : pyval) (s : state)
    (service_auth : pyval) (s1 : state) :
  get_service_auth E (snd (log (WaitingForProcessing job_id) s))
  = (Ret service_auth, s1) ->
  truthy service_auth = true ->
  (forall i, (i < 30)%nat ->
     keeps_waiting (http E (ncalls s1 + i) (GetJobStatus service_auth job_id))
     = true) ->
  exists s' t,
    wait_for_video_processing E job_id s = (Ret PNone, s')
    /\ trace s' = (Log ProcessingTimedOut :: t ++ trace s1)%list
    /\ count is_status_query t = 30%nat
    /\ count is_sleep t = 30%nat
    /\ clock s' = clock s + 300.
Proof.
  intros Hauth Htruthy Hwait.
  destruct (get_service_auth_spec E (snd (log (WaitingForProcessing job_id) s)))
    as (r0 & s0 & t0 & Hrun0 & _ & _ & Hclock & _).
  rewrite Hauth in Hrun0. injection Hrun0 as <- <-.
  destruct (poll_loop_exhausts E service_auth job_id 30 O s1 Hwait)
    as (s2 & t2 & Hloop & Ht2 & Hq2 & Hs2 & Hc2 & _).
  unfold wait_for_video_processing.
  unfold try_except. unfold bind at 1. unfold bind at 1.
  assert (Hlog : log (WaitingForProcessing job_id) s
                 = (Ret tt, snd (log (WaitingForProcessing job_id) s)))
    by reflexivity.
  rewrite Hlog. cbv beta iota.
  rewrite Hauth, Htruthy. cbn [negb]. unfold bind at 1.
  unfold max_attempts. rewrite Hloop.
  unfold_monad. red_state.
  do 2 eexists. split; [reflexivity|]. red_state.
  rewrite Ht2. repeat split; try assumption.
  rewrite Hc2, Hclock. cbn. lia.
Qed.

(** C3: [wait_for_video_processing] always returns, whatever the server
    answers (the model is a total function whose loop runs over a range of
    thirty); it sends at most thirty status queries and every sleep it
    takes lasts ten seconds.  When the service token was obtained and none
    of the thirty answers reports a terminal state, it sends exactly thirty
    queries, sleeps thirty times (300 seconds on the clock), prints the
    time-out message last and returns [None]. *)
Theorem poller_terminates_within_bound
    (E : env) (job_id : pyval) (s : state) :
  exists r s' t,
    wait_for_video_processing E job_id s = (Ret r, s')
    /\ trace s' = (t ++ trace s)%list
    /\ (count is_status_query t <= 30)%nat
    /\ (forall n, In (Sleep n) t -> n = 10)
    /\ (forall service_auth s1,
          get_service_auth E (snd (log (WaitingForProcessing job_id) s))
          = (Ret service_auth, s1) ->
          truthy service_auth = true ->
          (forall i, (i < 30)%nat ->
             keeps_waiting
               (http E (ncalls s1 + i) (GetJobStatus service_auth job_id))
             = true) ->
          r = PNone
          /\ hd_error t = Some (Log ProcessingTimedOut)
          /\ count is_status_query t = 30%nat
          /\ count is_sleep t = 30%nat
          /\ clock s' = clock s + 300).
Proof.
  destruct (wait_for_video_processing_spec E job_id s)
    as (r & s' & t & Hrun & Ht & _ & Hl & Hk & Hq & _ & Ho & _).
  exists r, s', t. split; [exact Hrun|]. split; [exact Ht|].
  split; [exact Hq|]. split.
  { intros n. now apply only_ten_second_sleeps. }
  intros service_auth s1 Hauth Htruthy Hwait.
  destruct (wait_times_out E job_id s service_auth s1 Hauth Htruthy Hwait)
    as (s2 & t2 & Hrun2 & Ht2 & Hq2 & Hs2 & Hc2).
  rewrite Hrun in Hrun2. injection Hrun2 as -> <-.
  destruct (get_service_auth_spec E (snd (log (WaitingForProcessing job_id) s)))
    as (r0 & s0 & t0 & Hrun0 & Ht0 & _ & _ & _ & _ & Hq0 & _ & Hs0 & _).
  rewrite Hauth in Hrun0. injection Hrun0 as <- <-.
  rewrite Ht0 in Ht2. cbn [log emit snd trace] in Ht2.
  rewrite Ht in Ht2.
  assert (Heq : t = (Log ProcessingTimedOut :: t2 ++ t0
                     ++ [Log (WaitingForProcessing job_id)])%list).
  { apply (app_inv_tail (trace s)). rewrite Ht2. cbn.
    rewrite <- !app_assoc. reflexivity. }
  rewrite Heq. cbn [hd_error count is_status_query is_sleep].
  rewrite !count_app, Hq2, Hs2, Hq0, Hs0. cbn.
  repeat split; auto.
Qed.

Lemma poller_terminates_within_bound_witness :
  exists r s' t,
    wait_for_video_processing (sample_env 1 accepted never_ends)
      (PStr "job-1") (logged_in 4) = (Ret r, s')
    /\ r = PNone
    /\ hd_error t = Some (Log ProcessingTimedOut)
    /\ count is_status_query t = 30%nat
    /\ count is_sleep t = 30%nat
    /\ clock s' = clock (logged_in 4) + 300.
Proof.
  destruct (poller_terminates_within_bound (sample_env 1 accepted never_ends)
              (PStr "job-1") (logged_in 4))
    as (r & s' & t & Hrun & _ & _ & _ & Hexhaust).
  exists r, s', t. split; [exact Hrun|].
  apply (Hexhaust (PStr "service-token")
           (snd (get_service_auth (sample_env 1 accepted never_ends)
                   (snd (log (WaitingForProcessing (PStr "job-1"))
                           (logged_in 4)))))).
  - reflexivity.
  - reflexivity.
  - intros i _. reflexivity.
Defined.

Lemma http_error_keeps_waiting (r : response) :
  http_error r = true -> keeps_waiting r = true.
Proof.
  destruct r as [|code body]; cbn; [discriminate|].
  intros H. apply negb_true_iff in H. rewrite H. reflexivity.
Qed.

(** C9: a status query answered with an HTTP status other than 200 does
    not end the polling: the failure is printed, the poller sleeps ten
    seconds and the loop goes on with one attempt less.  So when the
    service token was obtained and all thirty queries are answered with
    such a status, [wait_for_video_processing] ends like any other
    time-out: thirty queries, thirty sleeps, the time-out message, and
    [None]. *)
Theorem http_errors_consume_attempts
    (E : env) (service_auth job_id : pyval) :
  (forall (attempt : nat) (s : state) (code : Z) (body : option pyval),
      http E (ncalls s) (GetJobStatus service_auth job_id) = Reply code body ->
      code <> 200 ->
      exists s',
        poll_attempt E service_auth job_id attempt s = (Ret None, s')
        /\ trace s'
           = Sleep 10 :: Log (StatusCheckFailed code)
             :: Net (GetJobStatus service_auth job_id) :: trace s
        /\ clock s' = clock s + 10
        /\ forall n,
             poll_loop E service_auth job_id (S n) attempt s
             = poll_loop E service_auth job_id n (S attempt) s')
  /\ (forall (s s1 : state),
        get_service_auth E (snd (log (WaitingForProcessing job_id) s))
        = (Ret service_auth, s1) ->
        truthy service_auth = true ->
        (forall i, (i < 30)%nat ->
           http_error (http E (ncalls s1 + i) (GetJobStatus service_auth job_id))
           = true) ->
        exists s' t,
          wait_for_video_processing E job_id s = (Ret PNone, s')
          /\ trace s' = (Log ProcessingTimedOut :: t ++ trace s1)%list
          /\ count is_status_query t = 30%nat
          /\ count is_sleep t = 30%nat
          /\ clock s' = clock s + 300).
Proof.
  split.
  - intros attempt s code body Hh Hcode.
    apply Z.eqb_neq in Hcode.
    assert (Hrun : poll_attempt E service_auth job_id attempt s
                   = (Ret None,
                      snd ((log (StatusCheckFailed code) ;; sleep 10)
                             (snd (send E (GetJobStatus service_auth job_id)
                                     s))))).
    { unfold poll_attempt. unfold_monad. red_state. rewrite Hh. red_state.
      rewrite Hcode. reflexivity. }
    eexists. split; [exact Hrun|].
    split; [unfold_monad; red_state; rewrite Hh; reflexivity|].
    split; [unfold_monad; red_state; rewrite Hh; reflexivity|].
    intros n. cbn [poll_loop]. unfold bind at 1. rewrite Hrun. reflexivity.
  - intros s s1 Hauth Htruthy Herr.
    apply (wait_times_out E job_id s service_auth s1 Hauth Htruthy).
    intros i Hi. apply http_error_keeps_waiting. now apply Herr.
Qed.

Lemma http_errors_consume_attempts_witness :
  exists s' t,
    wait_for_video_processing (sample_env 1 accepted unavailable)
      (PStr "job-1") (logged_in 4) = (Ret PNone, s')
    /\ trace s'
       = (Log ProcessingTimedOut
          :: t ++ trace (snd (get_service_auth
                                (sample_env 1 accepted unavailable)
                                (snd (log (WaitingForProcessing (PStr "job-1"))
                                        (logged_in 4))))))%list
    /\ count is_status_query t = 30%nat
    /\ count is_sleep t = 30%nat
    /\ clock s' = clock (logged_in 4) + 300.
Proof.
  apply (proj2 (http_errors_consume_attempts
                  (sample_env 1 accepted unavailable)
                  (PStr "service-token") (PStr "job-1"))).
  - reflexivity.
  - reflexivity.
  - intros i _. reflexivity.
Defined.

(** ** The whole publish step *)

Lemma counts_of_effects (t l : list event) :
  effects t = l ->
  count is_directory_lookup t = count is_directory_lookup l
  /\ count is_token_request t = count is_token_request l
  /\ count is_status_query t = count is_status_query l
  /\ count is_create_record t = count is_create_record l
  /\ count is_other_sleep t = count is_other_sleep l.
Proof.
  intros <-. repeat split; symmetry; apply count_effects; reflexivity.
Qed.

Ltac counts_from_effects :=
  repeat match goal with
    | H : effects ?t = _ |- _ =>
        let K := fresh in
        assert (K := counts_of_effects t _ H); clear H;
        cbn [count is_directory_lookup is_token_request is_status_query
               is_create_record is_other_sleep Nat.add] in K;
        destruct K as (? & ? & ? & ? & ?)
    end.

Lemma post_to_bluesky_spec
    (E : env) (cfg : bluesky_config) (description sunrise_time today : string)
    (s : state) :
  exists r s' t,
    post_to_bluesky E cfg description sunrise_time today s = (Ret r, s')
    /\ trace s' = (t ++ trace s)%list
    /\ (count is_directory_lookup t <= 2)%nat
    /\ (count is_token_request t <= count is_directory_lookup t)%nat
    /\ (count is_status_query t <= 30)%nat
    /\ (count is_create_record t <= 1)%nat
    /\ count is_other_sleep t = O
    /\ (count is_processing_failed t <> O ->
        r = false /\ count is_create_record t = O).
Proof.
  unfold post_to_bluesky.
  destruct ((cfg_handle cfg =? "handle.bsky.social")%string
            || (cfg_password cfg =? "")%string).
  { unfold_monad. do 3 eexists. split; [reflexivity|]. split; [prefix|].
    norm_trace. conclude. }
  unfold_monad. red_state.
  match goal with
  | |- context [create_session E ?i ?p ?s0] =>
      destruct (create_session_spec E i p s0)
        as (r & s1 & t & Hrun & Ht & Hn & Hc & He & Hp)
  end.
  rewrite Hrun. destruct s1 as [? ? ? ? ? ?].
  cbn [trace ncalls clock] in Ht, Hn, Hc. subst.
  repeat first
    [ match goal with
      | |- context [upload_video E ?s0] => use_spec (upload_video_spec E) s0
      | |- context [create_post_with_video E ?a ?b ?c ?s0] =>
          use_spec (create_post_with_video_spec E a b c) s0
      end
    | split_match; red_state ];
    no_failure; counts_from_effects;
    (do 3 eexists; split; [reflexivity|]; split; [prefix|]);
    norm_trace; unfold max_attempts in *; conclude.
Qed.

(** C5: a status answer that reports [JOB_STATE_FAILED] makes the poller
    print the failure with the error message of the answer (["Unknown
    error"] when the answer has none) and give up with [None]; and a publish
    step in which a processing failure was printed returns [False] without
    having sent a [createRecord] request.  [create_post_with_video] sends
    that request whenever it is called, so the post record was never built
    or submitted. *)
Theorem processing_failure_aborts_before_post (E : env) :
  (forall (service_auth job_id : pyval) (attempt : nat) (s : state)
          (d js : list (string * pyval)),
      http E (ncalls s) (GetJobStatus service_auth job_id)
      = Reply 200 (Some (PDict d)) ->
      dict_get d "jobStatus" (PDict []) = PDict js ->
      dict_get js "state" PNone = PStr "JOB_STATE_FAILED" ->
      exists s',
        poll_attempt E service_auth job_id attempt s = (Ret (Some PNone), s')
        /\ hd_error (trace s')
           = Some (Log (ProcessingFailed
                          (dict_get js "error" (PStr "Unknown error"))))
        /\ forall n,
             poll_loop E service_auth job_id (S n) attempt s
             = (Ret (Some PNone), s'))
  /\ (forall (cfg : bluesky_config) (description sunrise_time today : string)
             (s : state),
        exists r s' t,
          post_to_bluesky E cfg description sunrise_time today s = (Ret r, s')
          /\ trace s' = (t ++ trace s)%list
          /\ (forall error,
                In (Log (ProcessingFailed error)) t ->
                r = false /\ count is_create_record t = O))
  /\ (forall (text : string) (video_result : list (string * pyval))
             (alt_text : string) (s : state),
        exists r s' t,
          create_post_with_video E text video_result alt_text s = (Ret r, s')
          /\ trace s' = (t ++ trace s)%list
          /\ count is_create_record t = 1%nat).
Proof.
  split; [|split].
  - intros service_auth job_id attempt s d js Hh Hjs Hst.
    assert (Hrun : poll_attempt E service_auth job_id attempt s
                   = (Ret (Some PNone),
                      snd (poll_attempt E service_auth job_id attempt s))
                     /\ hd_error
                          (trace (snd (poll_attempt E service_auth job_id
                                         attempt s)))
                        = Some (Log (ProcessingFailed
                                       (dict_get js "error"
                                          (PStr "Unknown error"))))).
    { unfold poll_attempt. unfold_monad. red_state. rewrite Hh.
      cbn [fst snd Z.eqb Pos.eqb py_get]. rewrite Hjs. cbn [py_get].
      red_state. rewrite Hst. split; reflexivity. }
    destruct Hrun as [Hrun Hhd].
    eexists. split; [exact Hrun|]. split; [exact Hhd|].
    intros n. cbn [poll_loop]. unfold bind at 1. rewrite Hrun. reflexivity.
  - intros cfg description sunrise_time today s.
    destruct (post_to_bluesky_spec E cfg description sunrise_time today s)
      as (r & s' & t & Hrun & Ht & _ & _ & _ & _ & _ & Hfail).
    exists r, s', t. split; [exact Hrun|]. split; [exact Ht|].
    intros error Hin. apply Hfail.
    assert (H := count_in is_processing_failed t _ Hin eq_refl). lia.
  - intros text video_result alt_text s.
    destruct (create_post_with_video_spec E text video_result alt_text s)
      as (r & s' & t & Hrun & Ht & _ & He & _).
    exists r, s', t. split; [exact Hrun|]. split; [exact Ht|].
    rewrite <- (count_effects is_create_record) by reflexivity.
    rewrite He. reflexivity.
Qed.

Lemma processing_failure_aborts_before_post_witness :
  let run :=
    post_to_bluesky (sample_env 20971520 accepted fails) sample_config
      "Dawn over the harbor" "04:31:00" "2025-08-03" (initial_state 0) in
  In (Log (ProcessingFailed (PStr "transcode error"))) (trace (snd run))
  /\ fst run = Ret false
  /\ count is_create_record (trace (snd run)) = O.
Proof.
  cbv zeta.
  destruct (proj1 (proj2 (processing_failure_aborts_before_post
                            (sample_env 20971520 accepted fails)))
              sample_config "Dawn over the harbor" "04:31:00" "2025-08-03"
              (initial_state 0))
    as (r & s' & t & Hrun & Ht & Hfail).
  assert (Hin : In (Log (ProcessingFailed (PStr "transcode error")))
                  (trace (snd (post_to_bluesky
                                 (sample_env 20971520 accepted fails)
                                 sample_config "Dawn over the harbor"
                                 "04:31:00" "2025-08-03" (initial_state 0))))).
  { vm_compute. right. right. left. reflexivity. }
  split; [exact Hin|].
  rewrite Hrun in *. cbn [fst snd] in *.
  cbn [initial_state trace] in Ht. rewrite app_nil_r in Ht. rewrite Ht in *.
  destruct (Hfail _ Hin) as [-> Hc]. split; [reflexivity | exact Hc].
Defined.

(** ** Storage-node resolution within one attempt *)

(** C7, as the specification states it, fails: on a run that posts the
    video the identity document is fetched twice, once for the upload
    token and once more for the polling token. *)
Lemma storage_node_is_resolved_twice :
  let run :=
    post_to_bluesky (sample_env 20971520 accepted completes) sample_config
      "Dawn over the harbor" "04:31:00" "2025-08-03" (initial_state 0) in
  fst run = Ret true
  /\ count is_directory_lookup (trace (snd run)) = 2%nat.
Proof. vm_compute. split; reflexivity. Qed.

(** C7, amended: nothing is cached.  Every call of [get_service_auth]
    fetches the identity document once, before it asks for the token; a
    publish step calls it at most twice (before the upload, and before the
    polling or on the conflict path), so it performs at most two directory
    lookups, and never more token requests than lookups. *)
Theorem storage_node_is_resolved_per_token
    (E : env) (cfg : bluesky_config) (description sunrise_time today : string)
    (s : state) :
  (exists r s' t,
      get_service_auth E s = (Ret r, s')
      /\ trace s' = (t ++ trace s)%list
      /\ count is_directory_lookup t = 1%nat
      /\ (count is_token_request t <= 1)%nat)
  /\ (exists r s' t,
        post_to_bluesky E cfg description sunrise_time today s = (Ret r, s')
        /\ trace s' = (t ++ trace s)%list
        /\ (count is_directory_lookup t <= 2)%nat
        /\ (count is_token_request t <= count is_directory_lookup t)%nat).
Proof.
  split.
  - destruct (get_service_auth_spec E s)
      as (r & s' & t & Hrun & Ht & _ & _ & Hl & Hk & _).
    exists r, s', t. auto.
  - destruct (post_to_bluesky_spec E cfg description sunrise_time today s)
      as (r & s' & t & Hrun & Ht & Hl & Hk & _).
    exists r, s', t. auto.
Qed.

(** ** The conflict path of the upload *)

(** C2, as the specification states it, fails: when the server answers the
    upload with 409 and reports the job as still running, [upload_video]
    prints that the state is unexpected and returns [None]; the poller is
    not started. *)
Lemma conflict_with_running_job_fails :
  let run :=
    upload_video
      (sample_env 20971520 (conflict "JOB_STATE_RUNNING") completes)
      (logged_in 1) in
  fst run = Ret None
  /\ hd_error (trace (snd run))
     = Some (Log (UnexpectedState (PStr "JOB_STATE_RUNNING")))
  /\ count is_status_query (trace (snd run)) = O.
Proof. vm_compute. repeat split. Qed.

(** C2, amended: when the server answers the upload with 409 and a body
    that carries a job id and a state, [upload_video] looks at the state.
    If it is [JOB_STATE_COMPLETED] (and the job id is not empty) it hands
    that job id to [get_completed_job_blob], which sends at most one status
    query and never sleeps, and it returns the dictionary made of the blob
    that call returns, the job id and the state ["completed"]; it returns
    [None] exactly when that call returns nothing.  For any other state it
    prints that the state is unexpected and returns [None] without sending
    anything more; the poller is started in neither case. *)
Theorem conflict_path_of_upload
    (E : env) (s s1 : state) (service_auth : pyval) (size : Z)
    (data : list byte) (u : string) (d : list (string * pyval)) :
  get_service_auth E s = (Ret service_auth, s1) ->
  truthy service_auth = true ->
  st_size E = Some size ->
  file_data E = Some data ->
  self_did s = PStr u ->
  http E (ncalls s1) (UploadVideo service_auth (quote E u) data)
  = Reply 409 (Some (PDict d)) ->
  let job_id := dict_get d "jobId" PNone in
  let job_state := dict_get d "state" PNone in
  exists s2,
    trace s2
    = Log AlreadyUploaded :: Log (UploadStatus 409)
      :: Net (UploadVideo service_auth (quote E u) data)
      :: Log (FileSize size) :: Log (Uploading (PStr u)) :: trace s1
    /\ ncalls s2 = S (ncalls s1)
    /\ (job_state = PStr "JOB_STATE_COMPLETED" ->
        truthy job_id = true ->
        exists blob_ref s3 t,
          get_completed_job_blob E job_id s2 = (Ret blob_ref, s3)
          /\ upload_video E s
             = (if truthy blob_ref then
                  (Ret (Some (video_result_of blob_ref job_id)), s3)
                else (Ret None, snd (log NoBlobFromCompletedJob s3)))
          /\ trace s3 = (t ++ trace s2)%list
          /\ (count is_status_query t <= 1)%nat
          /\ count is_sleep t = O
          /\ (truthy blob_ref = true -> count is_status_query t = 1%nat))
    /\ (job_state <> PStr "JOB_STATE_COMPLETED" \/ truthy job_id = false ->
        upload_video E s
        = (Ret None, snd (log (UnexpectedState job_state) s2))).
Proof.
  intros Hauth Htruthy Hsize Hdata Hu Hh job_id job_state.
  destruct (get_service_auth_spec E s)
    as (r0 & s0 & t0 & Hrun0 & _ & (_ & Hd & _) & _).
  rewrite Hauth in Hrun0. injection Hrun0 as <- <-.
  rewrite Hu in Hd.
  destruct s1 as [tok1 did1 handle1 n1 c1 t1].
  cbn [self_did ncalls trace] in Hd, Hh |- *. subst did1.
  set (s2 := {| self_access_token := tok1; self_did := PStr u;
                self_handle := handle1; ncalls := S n1; clock := c1;
                trace := Log AlreadyUploaded :: Log (UploadStatus 409)
                         :: Net (UploadVideo service_auth (quote E u) data)
                         :: Log (FileSize size) :: Log (Uploading (PStr u))
                         :: t1 |}).
  assert (Hup :
            upload_video E s
            = if eq_str job_state "JOB_STATE_COMPLETED" && truthy job_id then
                match get_completed_job_blob E job_id s2 with
                | (Ret blob_ref, s3) =>
                    if truthy blob_ref then
                      (Ret (Some (video_result_of blob_ref job_id)), s3)
                    else (Ret None, snd (log NoBlobFromCompletedJob s3))
                | (Raise, s3) => (Ret None, snd (log UploadError s3))
                end
              else (Ret None, snd (log (UnexpectedState job_state) s2))).
  { unfold upload_video. unfold try_except. unfold bind at 1.
    rewrite Hauth, Htruthy. cbn [negb].
    unfold_monad. red_state. rewrite Hsize, Hdata. red_state.
    rewrite Hh. cbn [fst snd Z.eqb Pos.eqb py_get]. red_state.
    fold job_id job_state. fold s2.
    destruct (eq_str job_state "JOB_STATE_COMPLETED" && truthy job_id);
      [|reflexivity].
    destruct (get_completed_job_blob E job_id s2) as [[blob|] s3];
      [|reflexivity].
    destruct (truthy blob); reflexivity. }
  exists s2.
  split; [reflexivity|]. split; [reflexivity|]. split.
  - intros Hst Hjob.
    destruct (get_completed_job_blob_spec E job_id s2)
      as (blob & s3 & t3 & Hrun3 & Ht3 & _ & _ & _ & Hq & _ & Hs & _ & _
          & _ & Hone).
    exists blob, s3, t3. split; [exact Hrun3|].
    split.
    { rewrite Hup, Hst, Hjob, Hrun3. reflexivity. }
    split; [exact Ht3|]. split; [exact Hq|]. split; [exact Hs|].
    intros Hblob. apply Hone. exact Hblob.
  - intros Hother. rewrite Hup.
    destruct (eq_str job_state "JOB_STATE_COMPLETED") eqn:Hst;
      [|reflexivity].
    apply eq_str_true in Hst.
    destruct Hother as [Hne | Hjob]; [contradiction|].
    rewrite Hjob. reflexivity.
Qed.

(** The server answers 409 with a completed job whose status carries a
    blob: the upload returns that blob with the job id. *)
Lemma conflict_path_of_upload_witness :
  fst (upload_video
         (sample_env 20971520 (conflict "JOB_STATE_COMPLETED")
            completed_already)
         (logged_in 1))
  = Ret (Some (video_result_of sample_blob (PStr "job-1"))).
Proof.
  destruct (conflict_path_of_upload
              (sample_env 20971520 (conflict "JOB_STATE_COMPLETED")
                 completed_already)
              (logged_in 1)
              (snd (get_service_auth
                      (sample_env 20971520 (conflict "JOB_STATE_COMPLETED")
                         completed_already)
                      (logged_in 1)))
              (PStr "service-token") 20971520 [] "did:plc:abc123"
              [("jobId", PStr "job-1"); ("state", PStr "JOB_STATE_COMPLETED")]
              eq_refl eq_refl eq_refl eq_refl eq_refl eq_refl)
    as (s2 & _ & _ & Hcompleted & _).
  destruct (Hcompleted eq_refl eq_refl) as (blob & s3 & t & _ & Hrun & _).
  reflexivity.
Defined.

(** ** Requests and time spent *)

Lemma count_of_effects (p : event -> bool) (t l : list event) :
  (forall m, p (Log m) = false) -> effects t = l -> count p t = count p l.
Proof. intros Hp <-. symmetry. now apply count_effects. Qed.

Section Costs.

Variable E : env.

Lemma get_service_auth_cost (s : state) :
  exists r s' t,
    get_service_auth E s = (Ret r, s')
    /\ trace s' = (t ++ trace s)%list
    /\ same_client s s'
    /\ clock s' = clock s
    /\ (1 <= count is_net t <= 2)%nat
    /\ count is_upload t = O
    /\ count is_create_session t = O
    /\ count is_create_record t = O
    /\ count is_sleep t = O.
Proof.
  destruct (get_service_auth_spec E s)
    as (r & s' & t & Hrun & Ht & Hsame & Hc & _ & _ & _ & Hcr & Hs & _ & _
        & He).
  exists r, s', t.
  repeat match goal with |- _ /\ _ => split end; auto;
    destruct He as [(_ & _ & He) | (aud & _ & He)];
    rewrite (count_of_effects _ t _ (fun _ => eq_refl) He); cbn; lia.
Qed.

Lemma poll_attempt_cost (service_auth job_id : pyval) (attempt : nat)
    (s : state) :
  exists o s' t,
    poll_attempt E service_auth job_id attempt s = (o, s')
    /\ trace s' = (t ++ trace s)%list
    /\ same_client s s'
    /\ count is_net t = 1%nat
    /\ count is_upload t = O
    /\ count is_create_session t = O
    /\ count is_create_record t = O
    /\ (count is_sleep t <= 1)%nat
    /\ clock s' = clock s + Z.of_nat (count is_sleep t) * 10.
Proof.
  unfold poll_attempt.
  run; footprint; norm_trace; conclude.
Qed.

Lemma poll_loop_cost (service_auth job_id : pyval) (remaining : nat) :
  forall (attempt : nat) (s : state),
  exists o s' t,
    poll_loop E service_auth job_id remaining attempt s = (o, s')
    /\ trace s' = (t ++ trace s)%list
    /\ same_client s s'
    /\ (count is_net t <= remaining)%nat
    /\ count is_upload t = O
    /\ count is_create_session t = O
    /\ count is_create_record t = O
    /\ (count is_sleep t <= remaining)%nat
    /\ clock s' = clock s + Z.of_nat (count is_sleep t) * 10.
Proof.
  induction remaining as [|n IH]; intros attempt s.
  - exists (Ret None), s, []. cbn. unfold same_client.
    repeat split; auto; lia.
  - cbn [poll_loop]. unfold bind at 1.
    destruct (poll_attempt_cost service_auth job_id attempt s)
      as (o & s1 & t1 & -> & Ht1 & (Ha1 & Hd1 & Hh1) & Hn1 & Hu1 & Hc1 & Hr1
          & Hs1 & Hk1).
    destruct o as [[v|]|].
    + exists (Ret (Some v)), s1, t1. unfold ret, same_client.
      repeat split; auto; lia.
    + destruct (IH (S attempt) s1)
        as (o & s2 & t2 & -> & Ht2 & (Ha2 & Hd2 & Hh2) & Hn2 & Hu2 & Hc2
            & Hr2 & Hs2 & Hk2).
      exists o, s2, (t2 ++ t1)%list. unfold same_client.
      rewrite !count_app, Ht2, Ht1, app_assoc.
      repeat split; auto; try congruence; lia.
    + exists Raise, s1, t1. unfold same_client. repeat split; auto; lia.
Qed.

Lemma wait_for_video_processing_cost (job_id : pyval) (s : state) :
  exists r s' t,
    wait_for_video_processing E job_id s = (Ret r, s')
    /\ trace s' = (t ++ trace s)%list
    /\ same_client s s'
    /\ (count is_net t <= 32)%nat
    /\ count is_upload t = O
    /\ count is_create_session t = O
    /\ count is_create_record t = O
    /\ (count is_sleep t <= 30)%nat
    /\ clock s' = clock s + Z.of_nat (count is_sleep t) * 10.
Proof.
  unfold wait_for_video_processing. unfold_monad. red_state.
  match goal with
  | |- context [get_service_auth E ?s0] => use_spec get_service_auth_cost s0
  end.
  destruct (truthy r) eqn:Hr; cbn [negb].
  - match goal with
    | |- context [poll_loop E ?a ?j ?n ?k ?s0] =>
        destruct (poll_loop_cost a j n k s0)
          as (o & s2 & t2 & -> & Ht2 & (Ha2 & Hd2 & Hh2) & Hn2 & Hu2 & Hc2
              & Hr2 & Hs2 & Hk2)
    end.
    destruct s2 as [? ? ? ? ? ?].
    cbn [trace clock self_access_token self_did self_handle]
      in Ht2, Hk2, Ha2, Hd2, Hh2.
    subst.
    unfold max_attempts in *.
    destruct o as [[v|]|]; footprint; norm_trace; conclude.
  - footprint; norm_trace; conclude.
Qed.

Lemma get_completed_job_blob_cost (job_id : pyval) (s : state) :
  exists r s' t,
    get_completed_job_blob E job_id s = (Ret r, s')
    /\ trace s' = (t ++ trace s)%list
    /\ same_client s s'
    /\ (count is_net t <= 3)%nat
    /\ count is_upload t = O
    /\ count is_create_session t = O
    /\ count is_create_record t = O
    /\ count is_sleep t = O
    /\ clock s' = clock s.
Proof.
  unfold get_completed_job_blob. unfold_monad. red_state.
  match goal with
  | |- context [get_service_auth E ?s0] => use_spec get_service_auth_cost s0
  end.
  run; footprint; norm_trace; conclude.
Qed.

Lemma upload_video_cost (s : state) :
  exists r s' t,
    upload_video E s = (Ret r, s')
    /\ trace s' = (t ++ trace s)%list
    /\ same_client s s'
    /\ (count is_net t <= 35)%nat
    /\ (count is_upload t <= 1)%nat
    /\ count is_create_session t = O
    /\ count is_create_record t = O
    /\ (count is_sleep t <= 30)%nat
    /\ clock s' = clock s + Z.of_nat (count is_sleep t) * 10
    /\ (r <> None -> count is_upload t = 1%nat).
Proof.
  unfold upload_video. unfold_monad. red_state.
  match goal with
  | |- context [get_service_auth E ?s0] => use_spec get_service_auth_cost s0
  end.
  repeat first
    [ match goal with
      | |- context [wait_for_video_processing E ?j ?s0] =>
          use_spec (wait_for_video_processing_cost j) s0
      | |- context [get_completed_job_blob E ?j ?s0] =>
          use_spec (get_completed_job_blob_cost j) s0
      end
    | split_match; red_state ];
    footprint; norm_trace; conclude; try congruence.
Qed.

Lemma create_post_with_video_cost (text : string)
    (video_result : list (string * pyval)) (alt_text : string) (s : state) :
  exists r s' t,
    create_post_with_video E text video_result alt_text s = (Ret r, s')
    /\ trace s' = (t ++ trace s)%list
    /\ same_client s s'
    /\ count is_net t = 1%nat
    /\ count is_create_record t = 1%nat
    /\ count is_upload t = O
    /\ count is_create_session t = O
    /\ count is_sleep t = O
    /\ clock s' = clock s.
Proof.
  unfold create_post_with_video.
  run; footprint; norm_trace; conclude.
Qed.

Lemma create_session_cost (identifier password : string) (s : state) :
  exists r s' t,
    create_session E identifier password s = (Ret r, s')
    /\ trace s' = (t ++ trace s)%list
    /\ clock s' = clock s
    /\ count is_net t = 1%nat
    /\ count is_create_session t = 1%nat
    /\ count is_upload t = O
    /\ count is_create_record t = O
    /\ count is_sleep t = O.
Proof.
  unfold create_session.
  run; (do 3 eexists; split; [reflexivity|]; split; [prefix|]);
    norm_trace; conclude.
Qed.

Lemma post_to_bluesky_cost
    (cfg : bluesky_config) (description sunrise_time today : string)
    (s : state) :
  exists r s' t,
    post_to_bluesky E cfg description sunrise_time today s = (Ret r, s')
    /\ trace s' = (t ++ trace s)%list
    /\ (count is_net t <= 37)%nat
    /\ (count is_create_session t <= 1)%nat
    /\ (count is_upload t <= 1)%nat
    /\ (count is_sleep t <= 30)%nat
    /\ clock s' = clock s + Z.of_nat (count is_sleep t) * 10
    /\ (r = true ->
        count is_create_session t = 1%nat
        /\ count is_upload t = 1%nat
        /\ count is_create_record t = 1%nat).
Proof.
  unfold post_to_bluesky.
  destruct ((cfg_handle cfg =? "handle.bsky.social")%string
            || (cfg_password cfg =? "")%string).
  { unfold_monad. do 3 eexists. split; [reflexivity|]. split; [prefix|].
    norm_trace. conclude. }
  unfold_monad. red_state.
  match goal with
  | |- context [create_session E ?i ?p ?s0] =>
      destruct (create_session_cost i p s0)
        as (r & s1 & t & Hrun & Ht & Hc & Hn & Hcs & Hu & Hr & Hs)
  end.
  rewrite Hrun. destruct s1 as [? ? ? ? ? ?].
  cbn [trace ncalls clock] in Ht, Hc. subst.
  repeat first
    [ match goal with
      | |- context [upload_video E ?s0] => use_spec upload_video_cost s0
      | |- context [create_post_with_video E ?a ?b ?c ?s0] =>
          use_spec (create_post_with_video_cost a b c) s0
      end
    | split_match; red_state ];
    (do 3 eexists; split; [reflexivity|]; split; [prefix|]);
    norm_trace; conclude;
    try match goal with
      | H : Some _ <> None -> _ |- _ =>
          specialize (H ltac:(discriminate)); lia
      end.
Qed.

End Costs.

(** ** Session creation *)

(** [create_session] sends one request and returns [True] exactly when the
    answer is a 200 whose body is a dictionary with the keys [accessJwt],
    [did] and [handle]; the three attributes of the client then hold these
    values.  In every other case it returns [False] and the handle of the
    client is the one it had. *)
Theorem create_session_sets_session
    (E : env) (identifier password : string) (s : state) :
  exists r s',
    create_session E identifier password s = (Ret r, s')
    /\ ncalls s' = S (ncalls s)
    /\ match session_of (http E (ncalls s) (CreateSession identifier password))
       with
       | Some (tok, dd, h) =>
           r = true
           /\ self_access_token s' = tok
           /\ self_did s' = dd
           /\ self_handle s' = h
       | None => r = false /\ self_handle s' = self_handle s
       end.
Proof.
  unfold create_session, session_of. unfold_monad. red_state.
  destruct (http E (ncalls s) (CreateSession identifier password))
    as [|code body]; red_state.
  { do 2 eexists. repeat split. }
  destruct (code =? 200); red_state.
  2:{ destruct body as [[]|]; do 2 eexists; repeat split. }
  destruct body as [data|]; red_state.
  2:{ do 2 eexists. repeat split. }
  destruct data; cbn [py_index]; red_state;
    try (do 2 eexists; repeat split; fail).
  destruct (lookup d "accessJwt"); red_state;
    [|do 2 eexists; repeat split].
  destruct (lookup d "did"); red_state; [|do 2 eexists; repeat split].
  destruct (lookup d "handle"); red_state; do 2 eexists; repeat split.
Qed.

(** ** The first storage-node entry wins *)

Lemma scan_services_first_endpoint (E : env) (pre post : list pyval)
    (entry : list (string * pyval)) (url host : string) :
  (forall sv, In sv pre -> exists d, sv = PDict d /\ has_pds_endpoint sv = false) ->
  dict_get entry "id" PNone = PStr "#atproto_pds" ->
  dict_get entry "serviceEndpoint" (PStr "") = PStr url ->
  url <> "" ->
  netloc E url = Some host ->
  scan_services E (pre ++ PDict entry :: post)
  = Some (Some ("did:web:" ++ host)%string).
Proof.
  intros Hpre Hid Hurl Hne Hhost.
  induction pre as [|sv pre IH]; cbn [app scan_services py_get].
  - rewrite Hid, Hurl. cbn [eq_str truthy].
    rewrite String.eqb_refl.
    apply String.eqb_neq in Hne. rewrite Hne. cbn [negb].
    rewrite Hhost. reflexivity.
  - destruct (Hpre sv (or_introl eq_refl)) as (d & -> & Hsv).
    cbn [py_get]. cbn [has_pds_endpoint] in Hsv.
    destruct (eq_str (dict_get d "id" PNone) "#atproto_pds").
    + cbn [andb] in Hsv. rewrite Hsv.
      apply IH. intros x Hx. apply Hpre. now right.
    + apply IH. intros x Hx. apply Hpre. now right.
Qed.

(** [get_user_pds_did] answers with the first entry of the [service] list
    whose id is ["#atproto_pds"] and whose endpoint is not empty: when the
    entries before it are dictionaries that are not such an entry, the
    result is ["did:web:"] followed by the host of that endpoint, whatever
    comes after it in the list. *)
Theorem pds_did_is_first_endpoint
    (E : env) (s : state) (doc : list (string * pyval))
    (pre post : list pyval) (entry : list (string * pyval))
    (url host : string) :
  http E (ncalls s) (GetDidDocument (self_did s))
  = Reply 200 (Some (PDict doc)) ->
  dict_get doc "service" (PList []) = PList (pre ++ PDict entry :: post) ->
  (forall sv, In sv pre -> exists d, sv = PDict d /\ has_pds_endpoint sv = false) ->
  dict_get entry "id" PNone = PStr "#atproto_pds" ->
  dict_get entry "serviceEndpoint" (PStr "") = PStr url ->
  url <> "" ->
  netloc E url = Some host ->
  fst (get_user_pds_did E s) = Ret (Some ("did:web:" ++ host)%string).
Proof.
  intros Hh Hs Hpre Hid Hurl Hne Hhost.
  unfold get_user_pds_did. unfold_monad. red_state. rewrite Hh.
  cbn [fst snd Z.eqb Pos.eqb py_get]. rewrite Hs. cbn [py_iter].
  rewrite (scan_services_first_endpoint E pre post entry url host
             Hpre Hid Hurl Hne Hhost).
  reflexivity.
Qed.

Lemma pds_did_is_first_endpoint_witness :
  fst (get_user_pds_did
         {| http := fun _ _ =>
              Reply 200
                (Some (PDict
                   [("service",
                     PList [PDict [("id", PStr "#atproto_labeler");
                                   ("serviceEndpoint",
                                    PStr "https://mod.example.com")];
                            PDict [("id", PStr "#atproto_pds");
                                   ("serviceEndpoint",
                                    PStr "https://pds.example.com")];
                            PDict [("id", PStr "#atproto_pds");
                                   ("serviceEndpoint",
                                    PStr "https://old.example.com")]])]));
            st_size := None; file_data := None;
            netloc := fun u => Some (substring 8 (String.length u - 8) u);
            quote := fun u => u;
            isoformat := fun _ => "" |}
         (logged_in 1))
  = Ret (Some "did:web:pds.example.com").
Proof.
  apply (pds_did_is_first_endpoint _ (logged_in 1)
           [("service",
             PList [PDict [("id", PStr "#atproto_labeler");
                           ("serviceEndpoint", PStr "https://mod.example.com")];
                    PDict [("id", PStr "#atproto_pds");
                           ("serviceEndpoint", PStr "https://pds.example.com")];
                    PDict [("id", PStr "#atproto_pds");
                           ("serviceEndpoint",
                            PStr "https://old.example.com")]])]
           [PDict [("id", PStr "#atproto_labeler");
                   ("serviceEndpoint", PStr "https://mod.example.com")]]
           [PDict [("id", PStr "#atproto_pds");
                   ("serviceEndpoint", PStr "https://old.example.com")]]
           [("id", PStr "#atproto_pds");
            ("serviceEndpoint", PStr "https://pds.example.com")]
           "https://pds.example.com" "pds.example.com").
  - reflexivity.
  - reflexivity.
  - intros sv [<- | []]. eexists. split; reflexivity.
  - reflexivity.
  - reflexivity.
  - discriminate.
  - reflexivity.
Defined.

(** ** Service tokens *)

(** [get_service_auth] asks for a token only when the storage node was
    resolved: when [get_user_pds_did] returns [None] it prints the failure
    and returns [None] without another request.  When the node was
    resolved, the request names it as the audience, asks for the scope
    [com.atproto.repo.uploadBlob] with an expiry 1800 seconds ahead, and on
    a 200 answer the result is the [token] of the body. *)
Theorem service_token_follows_resolution (E : env) (s s1 : state) :
  (get_user_pds_did E s = (Ret None, s1) ->
   get_service_auth E s = (Ret PNone, snd (log NoPdsDid s1)))
  /\ (forall (pds_did : string) (body : list (string * pyval)) (tok : pyval),
        get_user_pds_did E s = (Ret (Some pds_did), s1) ->
        http E (ncalls s1)
          (GetServiceAuth (self_access_token s) pds_did
             "com.atproto.repo.uploadBlob" (clock s + 1800))
        = Reply 200 (Some (PDict body)) ->
        lookup body "token" = Some tok ->
        exists s',
          get_service_auth E s = (Ret tok, s')
          /\ effects (trace s')
             = Net (GetServiceAuth (self_access_token s) pds_did
                      "com.atproto.repo.uploadBlob" (clock s + 1800))
               :: effects (trace s1)).
Proof.
  split.
  - intros Hpds. unfold get_service_auth. unfold try_except.
    unfold bind at 1. rewrite Hpds. reflexivity.
  - intros pds_did body tok Hpds Hh Htok.
    destruct (get_user_pds_did_spec E s)
      as (r0 & s0 & t0 & Hrun0 & _ & (Ha & _ & _) & Hc & _).
    rewrite Hpds in Hrun0. injection Hrun0 as <- <-.
    unfold get_service_auth. unfold try_except.
    unfold bind at 1. rewrite Hpds.
    unfold_monad. red_state. rewrite Ha, Hc, Hh.
    cbn [fst snd Z.eqb Pos.eqb py_index]. rewrite Htok. red_state.
    eexists. split; reflexivity.
Qed.

Lemma service_token_follows_resolution_witness :
  exists s',
    get_service_auth (sample_env 1 accepted completes) (logged_in 1)
    = (Ret (PStr "service-token"), s')
    /\ effects (trace s')
       = Net (GetServiceAuth (self_access_token (logged_in 1))
                "did:web:pds.example.com" "com.atproto.repo.uploadBlob"
                (clock (logged_in 1) + 1800))
         :: effects (trace (snd (get_user_pds_did
                                   (sample_env 1 accepted completes)
                                   (logged_in 1)))).
Proof.
  apply (proj2 (service_token_follows_resolution
                  (sample_env 1 accepted completes) (logged_in 1)
                  (snd (get_user_pds_did (sample_env 1 accepted completes)
                          (logged_in 1))))
           "did:web:pds.example.com" [("token", PStr "service-token")]
           (PStr "service-token")).
  - reflexivity.
  - reflexivity.
  - reflexivity.
Defined.

(** ** The first answer that is not a wait decides the polling *)

Section FirstAnswer.

Variable E : env.
Variables service_auth job_id : pyval.

(** [k] answers without a terminal state take [k] passes of the loop. *)
Lemma poll_loop_skips_waiting (k n : nat) :
  forall (attempt : nat) (s : state),
    (forall i, (i < k)%nat ->
       keeps_waiting (http E (ncalls s + i) (GetJobStatus service_auth job_id))
       = true) ->
    exists s' t,
      poll_loop E service_auth job_id (k + n) attempt s
      = poll_loop E service_auth job_id n (attempt + k) s'
      /\ trace s' = (t ++ trace s)%list
      /\ ncalls s' = (ncalls s + k)%nat
      /\ count is_status_query t = k
      /\ count is_sleep t = k
      /\ clock s' = clock s + 10 * Z.of_nat k.
Proof.
  induction k as [|k IH]; intros attempt s H.
  - exists s, []. rewrite !Nat.add_0_r. cbn. repeat split. lia.
  - cbn [Nat.add poll_loop]. unfold bind at 1.
    destruct (poll_attempt_waits E service_auth job_id attempt s)
      as (s1 & t1 & -> & Ht1 & He1 & Hn1 & Hc1 & _).
    { rewrite <- (Nat.add_0_r (ncalls s)). apply H. lia. }
    destruct (IH (S attempt) s1) as (s2 & t2 & Hrun & Ht2 & Hn2 & Hq2 & Hs2 & Hc2).
    { intros i Hi. rewrite Hn1.
      replace (S (ncalls s) + i)%nat with (ncalls s + S i)%nat by lia.
      apply H. lia. }
    exists s2, (t2 ++ t1)%list.
    rewrite Hrun, Nat.add_succ_r. cbn [Nat.add].
    rewrite !count_app, Ht2, Ht1, app_assoc, Hq2, Hs2, Hn2, Hn1, Hc2, Hc1.
    rewrite (count_of_effects is_status_query t1 _ (fun _ => eq_refl) He1).
    rewrite (count_of_effects is_sleep t1 _ (fun _ => eq_refl) He1).
    cbn [count is_status_query is_sleep].
    repeat split; lia.
Qed.

(** [wait_for_video_processing], once the token is there and the first [k]
    answers are waits, is the rest of its body run at attempt [k]. *)
Lemma wait_after_waiting (s s1 : state) (k : nat) :
  get_service_auth E (snd (log (WaitingForProcessing job_id) s))
  = (Ret service_auth, s1) ->
  truthy service_auth = true ->
  (k < 30)%nat ->
  (forall i, (i < k)%nat ->
     keeps_waiting (http E (ncalls s1 + i) (GetJobStatus service_auth job_id))
     = true) ->
  exists sk t,
    wait_for_video_processing E job_id s
    = try_except
        (r <- poll_loop E service_auth job_id (30 - k) k ;;
         match r with
         | Some v => ret v
         | None => log ProcessingTimedOut ;; ret PNone
         end)
        (log WaitError ;; ret PNone) sk
    /\ trace sk = (t ++ trace s1)%list
    /\ ncalls sk = (ncalls s1 + k)%nat
    /\ count is_status_query t = k
    /\ count is_sleep t = k
    /\ clock sk = clock s + 10 * Z.of_nat k.
Proof.
  intros Hauth Htruthy Hk Hwait.
  destruct (get_service_auth_spec E (snd (log (WaitingForProcessing job_id) s)))
    as (r0 & s0 & t0 & Hrun0 & _ & _ & Hclock & _).
  rewrite Hauth in Hrun0. injection Hrun0 as <- <-.
  destruct (poll_loop_skips_waiting k (30 - k) O s1 Hwait)
    as (sk & t & Hloop & Ht & Hn & Hq & Hs & Hc).
  replace (k + (30 - k))%nat with 30%nat in Hloop by lia.
  cbn [Nat.add] in Hloop.
  exists sk, t.
  split; [|repeat split; auto; rewrite Hc, Hclock; reflexivity].
  unfold wait_for_video_processing.
  unfold try_except. unfold bind at 1. unfold bind at 1.
  assert (Hlog : log (WaitingForProcessing job_id) s
                 = (Ret tt, snd (log (WaitingForProcessing job_id) s)))
    by reflexivity.
  rewrite Hlog. cbv beta iota.
  rewrite Hauth, Htruthy. cbn [negb]. unfold bind at 1. unfold bind at 2.
  unfold max_attempts. rewrite Hloop. reflexivity.
Qed.

End FirstAnswer.

Lemma job_status_of_inv (r : response) (js : list (string * pyval)) :
  job_status_of r = Some js ->
  exists d,
    r = Reply 200 (Some (PDict d))
    /\ dict_get d "jobStatus" (PDict []) = PDict js.
Proof.
  unfold job_status_of.
  destruct r as [|code [[| | | | |d]|]]; try discriminate.
  destruct (Z.eqb_spec code 200) as [->|]; [|discriminate].
  destruct (dict_get d "jobStatus" (PDict [])) eqn:Hjs; try discriminate.
  intros [= <-]. now exists d.
Qed.

(** The polling ends with the first answer that reports a terminal state:
    when the token was obtained, the first [k] answers (fewer than thirty)
    are waits and the next one reports [JOB_STATE_COMPLETED] with a blob,
    [wait_for_video_processing] returns that blob after [k + 1] queries and
    [k] sleeps; when it reports [JOB_STATE_FAILED], the result is [None]
    after as many queries and sleeps, with the failure printed last. *)
Theorem first_terminal_answer_decides
    (E : env) (service_auth job_id : pyval) (s s1 : state) (k : nat)
    (js : list (string * pyval)) :
  get_service_auth E (snd (log (WaitingForProcessing job_id) s))
  = (Ret service_auth, s1) ->
  truthy service_auth = true ->
  (k < 30)%nat ->
  (forall i, (i < k)%nat ->
     keeps_waiting (http E (ncalls s1 + i) (GetJobStatus service_auth job_id))
     = true) ->
  job_status_of (http E (ncalls s1 + k) (GetJobStatus service_auth job_id))
  = Some js ->
  (dict_get js "state" PNone = PStr "JOB_STATE_COMPLETED" ->
   truthy (dict_get js "blob" PNone) = true ->
   exists s' t,
     wait_for_video_processing E job_id s
     = (Ret (dict_get js "blob" PNone), s')
     /\ trace s' = (t ++ trace s1)%list
     /\ count is_status_query t = S k
     /\ count is_sleep t = k
     /\ clock s' = clock s + 10 * Z.of_nat k)
  /\ (dict_get js "state" PNone = PStr "JOB_STATE_FAILED" ->
      exists s' t,
        wait_for_video_processing E job_id s = (Ret PNone, s')
        /\ trace s' = (t ++ trace s1)%list
        /\ hd_error t
           = Some (Log (ProcessingFailed
                          (dict_get js "error" (PStr "Unknown error"))))
        /\ count is_status_query t = S k
        /\ count is_sleep t = k
        /\ clock s' = clock s + 10 * Z.of_nat k).
Proof.
  intros Hauth Htruthy Hk Hwait Hjs.
  destruct (wait_after_waiting E service_auth job_id s s1 k
              Hauth Htruthy Hk Hwait)
    as (sk & t & Hrun & Ht & Hn & Hq & Hs & Hc).
  destruct (job_status_of_inv _ _ Hjs) as (d & Hh & Hd).
  rewrite <- Hn in Hh.
  destruct (30 - k)%nat as [|m] eqn:Hm; [lia|].
  rewrite Hrun. unfold try_except. unfold bind at 1. cbn [poll_loop].
  unfold bind at 1. unfold poll_attempt.
  unfold_monad. red_state. rewrite Hh.
  cbn [fst snd Z.eqb Pos.eqb py_get]. rewrite Hd. cbn [py_get]. red_state.
  split.
  - intros Hst Hblob. rewrite Hst, Hblob. cbn [eq_str String.eqb Ascii.eqb
      Bool.eqb andb]. red_state.
    do 2 eexists. split; [reflexivity|]. red_state.
    split; [rewrite Ht; prefix|].
    norm_trace. rewrite Hq, Hs. repeat split; try lia. exact Hc.
  - intros Hst. rewrite Hst. cbn [eq_str String.eqb Ascii.eqb Bool.eqb andb].
    red_state.
    do 2 eexists. split; [reflexivity|]. red_state.
    split; [rewrite Ht; prefix|].
    norm_trace. rewrite Hq, Hs. repeat split; try lia. exact Hc.
Qed.

Lemma first_terminal_answer_decides_witness :
  exists s' t,
    wait_for_video_processing (sample_env 1 accepted completes)
      (PStr "job-1") (logged_in 4) = (Ret sample_blob, s')
    /\ trace s'
       = (t ++ trace (snd (get_service_auth (sample_env 1 accepted completes)
                             (snd (log (WaitingForProcessing (PStr "job-1"))
                                     (logged_in 4))))))%list
    /\ count is_status_query t = 3%nat
    /\ count is_sleep t = 2%nat
    /\ clock s' = clock (logged_in 4) + 10 * Z.of_nat 2.
Proof.
  apply (proj1 (first_terminal_answer_decides
                  (sample_env 1 accepted completes) (PStr "service-token")
                  (PStr "job-1") (logged_in 4)
                  (snd (get_service_auth (sample_env 1 accepted completes)
                          (snd (log (WaitingForProcessing (PStr "job-1"))
                                  (logged_in 4)))))
                  2
                  [("jobId", PStr "job-1");
                   ("state", PStr "JOB_STATE_COMPLETED");
                   ("blob", sample_blob)]
                  eq_refl eq_refl ltac:(lia)
                  ltac:(intros [|[|i]] Hi; [reflexivity | reflexivity | lia])
                  eq_refl)).
  - reflexivity.
  - reflexivity.
Defined.

(** An exception in the polling loop is not retried: when the token was
    obtained, the first [k] answers (fewer than thirty) are waits and the
    next query gets no answer or a malformed one, the polling stops there:
    [wait_for_video_processing] prints the error and returns [None] after
    [k + 1] queries and [k] sleeps. *)
Theorem poll_exception_is_not_retried
    (E : env) (service_auth job_id : pyval) (s s1 : state) (k : nat) :
  get_service_auth E (snd (log (WaitingForProcessing job_id) s))
  = (Ret service_auth, s1) ->
  truthy service_auth = true ->
  (k < 30)%nat ->
  (forall i, (i < k)%nat ->
     keeps_waiting (http E (ncalls s1 + i) (GetJobStatus service_auth job_id))
     = true) ->
  breaks_polling (http E (ncalls s1 + k) (GetJobStatus service_auth job_id))
  = true ->
  exists s' t,
    wait_for_video_processing E job_id s = (Ret PNone, s')
    /\ trace s' = (t ++ trace s1)%list
    /\ hd_error t = Some (Log WaitError)
    /\ count is_status_query t = S k
    /\ count is_sleep t = k
    /\ clock s' = clock s + 10 * Z.of_nat k.
Proof.
  intros Hauth Htruthy Hk Hwait Hbreak.
  destruct (wait_after_waiting E service_auth job_id s s1 k
              Hauth Htruthy Hk Hwait)
    as (sk & t & Hrun & Ht & Hn & Hq & Hs & Hc).
  rewrite <- Hn in Hbreak.
  destruct (30 - k)%nat as [|m] eqn:Hm; [lia|].
  rewrite Hrun. unfold try_except. unfold bind at 1. cbn [poll_loop].
  unfold bind at 1. unfold poll_attempt.
  unfold breaks_polling, reported_state in Hbreak.
  unfold_monad. red_state.
  destruct (http E (ncalls sk) (GetJobStatus service_auth job_id))
    as [|code body]; red_state.
  - do 2 eexists. split; [reflexivity|]. red_state.
    split; [rewrite Ht; prefix|].
    norm_trace. rewrite Hq, Hs. repeat split; try lia. exact Hc.
  - destruct (code =? 200); [|discriminate]. cbn [andb] in Hbreak.
    destruct body as [b|]; red_state.
    + destruct b as [| | | | |d]; cbn [py_get]; red_state;
        try (do 2 eexists; split; [reflexivity|]; red_state;
             split; [rewrite Ht; prefix|];
             norm_trace; rewrite Hq, Hs; repeat split; try lia; exact Hc).
      destruct (dict_get d "jobStatus" (PDict [])); try discriminate;
        cbn [py_get]; red_state;
        (do 2 eexists; split; [reflexivity|]; red_state;
         split; [rewrite Ht; prefix|];
         norm_trace; rewrite Hq, Hs; repeat split; try lia; exact Hc).
    + do 2 eexists. split; [reflexivity|]. red_state.
      split; [rewrite Ht; prefix|].
      norm_trace. rewrite Hq, Hs. repeat split; try lia. exact Hc.
Qed.

(** A video service that stops answering after the first status query
    (the query is request 6 of a run, the next one gets no answer). *)
Lemma poll_exception_is_not_retried_witness :
  exists s' t,
    wait_for_video_processing
      (sample_env 1 accepted
         (fun n => match n with
                   | 6%nat => job_status "JOB_STATE_RUNNING" []
                   | _ => ConnError
                   end))
      (PStr "job-1") (logged_in 4) = (Ret PNone, s')
    /\ trace s'
       = (t ++ trace
                 (snd (get_service_auth
                         (sample_env 1 accepted
                            (fun n => match n with
                                      | 6%nat => job_status "JOB_STATE_RUNNING" []
                                      | _ => ConnError
                                      end))
                         (snd (log (WaitingForProcessing (PStr "job-1"))
                                 (logged_in 4))))))%list
    /\ hd_error t = Some (Log WaitError)
    /\ count is_status_query t = 2%nat
    /\ count is_sleep t = 1%nat
    /\ clock s' = clock (logged_in 4) + 10 * Z.of_nat 1.
Proof.
  apply (poll_exception_is_not_retried
           (sample_env 1 accepted
              (fun n => match n with
                        | 6%nat => job_status "JOB_STATE_RUNNING" []
                        | _ => ConnError
                        end))
           (PStr "service-token") (PStr "job-1") (logged_in 4)).
  - reflexivity.
  - reflexivity.
  - lia.
  - intros [|i] Hi; [reflexivity | lia].
  - reflexivity.
Defined.

(** ** No token, no privileged call *)

(** When [get_service_auth] comes back without a usable token ([None], or
    an empty or null token in the answer), none of the three methods that
    need one does anything more: [upload_video] reads no file and uploads
    nothing, [wait_for_video_processing] and [get_completed_job_blob] send
    no status query; each returns [None] in the state the token call
    left. *)
Theorem nothing_is_sent_without_token
    (E : env) (job_id service_auth : pyval) (s : state) :
  truthy service_auth = false ->
  (forall s1,
      get_service_auth E s = (Ret service_auth, s1) ->
      upload_video E s = (Ret None, s1))
  /\ (forall s1,
        get_service_auth E (snd (log (WaitingForProcessing job_id) s))
        = (Ret service_auth, s1) ->
        wait_for_video_processing E job_id s = (Ret PNone, s1))
  /\ (forall s1,
        get_service_auth E (snd (log (GettingBlob job_id) s))
        = (Ret service_auth, s1) ->
        get_completed_job_blob E job_id s = (Ret PNone, s1)).
Proof.
  intros Hf. split; [|split]; intros s1 Hauth.
  - unfold upload_video. unfold try_except. unfold bind at 1.
    rewrite Hauth, Hf. reflexivity.
  - unfold wait_for_video_processing. unfold try_except.
    unfold bind at 1. unfold bind at 1.
    assert (Hlog : log (WaitingForProcessing job_id) s
                   = (Ret tt, snd (log (WaitingForProcessing job_id) s)))
      by reflexivity.
    rewrite Hlog. cbv beta iota. rewrite Hauth, Hf. reflexivity.
  - unfold get_completed_job_blob. unfold try_except.
    unfold bind at 1. unfold bind at 1.
    assert (Hlog : log (GettingBlob job_id) s
                   = (Ret tt, snd (log (GettingBlob job_id) s)))
      by reflexivity.
    rewrite Hlog. cbv beta iota. rewrite Hauth, Hf. reflexivity.
Qed.

(** A token service that answers 200 with an empty token. *)
Lemma nothing_is_sent_without_token_witness :
  let E :=
    {| http := fun _ r =>
         match r with
         | GetDidDocument _ => Reply 200 (Some sample_did_document)
         | _ => Reply 200 (Some (PDict [("token", PStr "")]))
         end;
       st_size := Some 1; file_data := Some [];
       netloc := fun u => Some u; quote := fun u => u;
       isoformat := fun _ => "" |} in
  count is_upload (trace (snd (upload_video E (logged_in 1)))) = O
  /\ fst (upload_video E (logged_in 1)) = Ret None.
Proof.
  intros E.
  rewrite (proj1 (nothing_is_sent_without_token E PNone (PStr "")
                    (logged_in 1) eq_refl)
             (snd (get_service_auth E (logged_in 1))) eq_refl).
  split; reflexivity.
Defined.

(** ** What a publish step costs *)

(** One call of [post_to_bluesky] sends at most 37 requests, among them at
    most one login, one upload, thirty status queries and one
    [createRecord], and sleeps at most 300 seconds in all: the clock moves
    by ten seconds for each sleep and by nothing else. *)
Theorem publish_step_is_bounded
    (E : env) (cfg : bluesky_config) (description sunrise_time today : string)
    (s : state) :
  exists r s' t,
    post_to_bluesky E cfg description sunrise_time today s = (Ret r, s')
    /\ trace s' = (t ++ trace s)%list
    /\ (count is_net t <= 37)%nat
    /\ (count is_create_session t <= 1)%nat
    /\ (count is_upload t <= 1)%nat
    /\ (count is_status_query t <= 30)%nat
    /\ (count is_create_record t <= 1)%nat
    /\ clock s' = clock s + 10 * Z.of_nat (count is_sleep t)
    /\ clock s <= clock s' <= clock s + 300.
Proof.
  destruct (post_to_bluesky_cost E cfg description sunrise_time today s)
    as (r & s' & t & Hrun & Ht & Hn & Hcs & Hu & Hs & Hc & _).
  destruct (post_to_bluesky_spec E cfg description sunrise_time today s)
    as (r2 & s2 & t2 & Hrun2 & Ht2 & _ & _ & Hq & Hcr & _).
  rewrite Hrun in Hrun2. injection Hrun2 as <- <-.
  rewrite Ht in Ht2. apply app_inv_tail in Ht2. subst t2.
  exists r, s', t. repeat split; auto; lia.
Qed.

(** [post_to_bluesky] returns [True] only after it has logged in, uploaded
    the video and sent the [createRecord] request, each exactly once. *)
Theorem posted_means_uploaded_and_recorded
    (E : env) (cfg : bluesky_config) (description sunrise_time today : string)
    (s : state) :
  fst (post_to_bluesky E cfg description sunrise_time today s) = Ret true ->
  exists t,
    trace (snd (post_to_bluesky E cfg description sunrise_time today s))
    = (t ++ trace s)%list
    /\ count is_create_session t = 1%nat
    /\ count is_upload t = 1%nat
    /\ count is_create_record t = 1%nat.
Proof.
  destruct (post_to_bluesky_cost E cfg description sunrise_time today s)
    as (r & s' & t & Hrun & Ht & _ & _ & _ & _ & _ & Htrue).
  rewrite Hrun. cbn [fst snd]. intros [= ->]. exists t. auto.
Qed.

Lemma posted_means_uploaded_and_recorded_witness :
  exists t,
    trace (snd (post_to_bluesky (sample_env 20971520 accepted completes)
                  sample_config "Dawn over the harbor" "04:31:00"
                  "2025-08-03" (initial_state 0)))
    = (t ++ trace (initial_state 0))%list
    /\ count is_create_session t = 1%nat
    /\ count is_upload t = 1%nat
    /\ count is_create_record t = 1%nat.
Proof.
  apply (posted_means_uploaded_and_recorded
           (sample_env 20971520 accepted completes) sample_config
           "Dawn over the harbor" "04:31:00" "2025-08-03" (initial_state 0)).
  reflexivity.
Defined.

(** ** Client attributes *)

(** Only [create_session] writes the session: the access token, the DID
    and the handle of the client are the same before and after each of the
    other methods. *)
Theorem session_is_written_by_login_only (E : env) (s : state) :
  same_client s (snd (get_user_pds_did E s))
  /\ same_client s (snd (get_service_auth E s))
  /\ (forall job_id,
        same_client s (snd (wait_for_video_processing E job_id s)))
  /\ (forall job_id, same_client s (snd (get_completed_job_blob E job_id s)))
  /\ same_client s (snd (upload_video E s))
  /\ (forall text video_result alt_text,
        same_client s
          (snd (create_post_with_video E text video_result alt_text s))).
Proof.
  repeat match goal with |- _ /\ _ => split end; intros.
  - destruct (get_user_pds_did_spec E s) as (r & s' & t & -> & _ & H & _).
    exact H.
  - destruct (get_service_auth_spec E s) as (r & s' & t & -> & _ & H & _).
    exact H.
  - destruct (wait_for_video_processing_spec E job_id s)
      as (r & s' & t & -> & _ & H & _). exact H.
  - destruct (get_completed_job_blob_spec E job_id s)
      as (r & s' & t & -> & _ & H & _). exact H.
  - destruct (upload_video_spec E s) as (r & s' & t & -> & _ & H & _).
    exact H.
  - destruct (create_post_with_video_spec E text video_result alt_text s)
      as (r & s' & t & -> & _ & H & _). exact H.
Qed.

(** ** The upload *)

(** When the upload is answered with 200 and a job id, [upload_video]
    hands that job id to [wait_for_video_processing] and returns the
    dictionary made of the blob the poller returns, the job id and the
    state ["completed"], or [None] when the poller returns nothing.  When
    the answer has no job id (or an empty one) it returns [None] and does
    not poll. *)
Theorem accepted_upload_returns_polled_blob
    (E : env) (s s1 : state) (service_auth : pyval) (size : Z)
    (data : list byte) (u : string) (d : list (string * pyval)) :
  get_service_auth E s = (Ret service_auth, s1) ->
  truthy service_auth = true ->
  st_size E = Some size ->
  file_data E = Some data ->
  self_did s = PStr u ->
  http E (ncalls s1) (UploadVideo service_auth (quote E u) data)
  = Reply 200 (Some (PDict d)) ->
  exists s2,
    trace s2
    = Log (UploadStatus 200)
      :: Net (UploadVideo service_auth (quote E u) data)
      :: Log (FileSize size) :: Log (Uploading (PStr u)) :: trace s1
    /\ ncalls s2 = S (ncalls s1)
    /\ (truthy (dict_get d "jobId" PNone) = false ->
        upload_video E s = (Ret None, snd (log NoJobId s2)))
    /\ (truthy (dict_get d "jobId" PNone) = true ->
        exists blob_ref s3,
          wait_for_video_processing E (dict_get d "jobId" PNone) s2
          = (Ret blob_ref, s3)
          /\ upload_video E s
             = (if truthy blob_ref then
                  (Ret (Some (video_result_of blob_ref
                                (dict_get d "jobId" PNone))), s3)
                else (Ret None, snd (log NoBlobAfterProcessing s3)))).
Proof.
  intros Hauth Htruthy Hsize Hdata Hu Hh.
  destruct (get_service_auth_spec E s)
    as (r0 & s0 & t0 & Hrun0 & _ & (_ & Hd & _) & _).
  rewrite Hauth in Hrun0. injection Hrun0 as <- <-.
  rewrite Hu in Hd.
  destruct s1 as [tok1 did1 handle1 n1 c1 t1].
  cbn [self_did ncalls trace] in Hd, Hh |- *. subst did1.
  set (s2 := {| self_access_token := tok1; self_did := PStr u;
                self_handle := handle1; ncalls := S n1; clock := c1;
                trace := Log (UploadStatus 200)
                         :: Net (UploadVideo service_auth (quote E u) data)
                         :: Log (FileSize size) :: Log (Uploading (PStr u))
                         :: t1 |}).
  assert (Hup :
            upload_video E s
            = if truthy (dict_get d "jobId" PNone) then
                match wait_for_video_processing E (dict_get d "jobId" PNone) s2
                with
                | (Ret blob_ref, s3) =>
                    if truthy blob_ref then
                      (Ret (Some (video_result_of blob_ref
                                    (dict_get d "jobId" PNone))), s3)
                    else (Ret None, snd (log NoBlobAfterProcessing s3))
                | (Raise, s3) => (Ret None, snd (log UploadError s3))
                end
              else (Ret None, snd (log NoJobId s2))).
  { unfold upload_video. unfold try_except. unfold bind at 1.
    rewrite Hauth, Htruthy. cbn [negb].
    unfold_monad. red_state. rewrite Hsize, Hdata. red_state.
    rewrite Hh. cbn [fst snd Z.eqb Pos.eqb py_get]. red_state.
    fold s2.
    destruct (truthy (dict_get d "jobId" PNone)); [|reflexivity].
    destruct (wait_for_video_processing E (dict_get d "jobId" PNone) s2)
      as [[blob|] s3]; [|reflexivity].
    destruct (truthy blob); reflexivity. }
  exists s2.
  split; [reflexivity|]. split; [reflexivity|]. split.
  - intros Hjob. rewrite Hup, Hjob. reflexivity.
  - intros Hjob.
    destruct (wait_for_video_processing_spec E (dict_get d "jobId" PNone) s2)
      as (blob & s3 & t3 & Hrun3 & _).
    exists blob, s3. split; [exact Hrun3|].
    rewrite Hup, Hjob, Hrun3. reflexivity.
Qed.

Lemma accepted_upload_returns_polled_blob_witness :
  fst (upload_video (sample_env 20971520 accepted completes) (logged_in 1))
  = Ret (Some (video_result_of sample_blob (PStr "job-1"))).
Proof.
  destruct (accepted_upload_returns_polled_blob
              (sample_env 20971520 accepted completes) (logged_in 1)
              (snd (get_service_auth (sample_env 20971520 accepted completes)
                      (logged_in 1)))
              (PStr "service-token") 20971520 [] "did:plc:abc123"
              [("jobId", PStr "job-1")]
              eq_refl eq_refl eq_refl eq_refl eq_refl eq_refl)
    as (s2 & _ & _ & _ & Hjob).
  destruct (Hjob eq_refl) as (blob & s3 & _ & Hrun).
  reflexivity.
Defined.

(** Nothing is uploaded when the video file cannot be read or the client
    has no DID string: if getting the file size or reading the file
    raises, or [self.did] is not a string, [upload_video] returns [None]
    without having sent the upload request. *)
Theorem unreadable_video_is_not_uploaded (E : env) (s : state) :
  st_size E = None \/ file_data E = None
  \/ (forall u, self_did s <> PStr u) ->
  exists s' t,
    upload_video E s = (Ret None, s')
    /\ trace s' = (t ++ trace s)%list
    /\ count is_upload t = O.
Proof.
  intros H.
  unfold upload_video. unfold_monad. red_state.
  match goal with
  | |- context [get_service_auth E ?s0] => use_spec (get_service_auth_cost E) s0
  end.
  destruct (truthy r); cbn [negb]; red_state.
  2:{ do 2 eexists. split; [reflexivity|]. split; [prefix|].
      norm_trace. lia. }
  destruct (st_size E) as [size|]; red_state.
  2:{ do 2 eexists. split; [reflexivity|]. split; [prefix|].
      norm_trace. lia. }
  destruct (file_data E) as [data|]; red_state.
  2:{ do 2 eexists. split; [reflexivity|]. split; [prefix|].
      norm_trace. lia. }
  destruct (self_did s) as [| | |u| |] eqn:Hd; red_state;
    try (do 2 eexists; split; [reflexivity|]; split; [prefix|];
         norm_trace; lia).
  exfalso. destruct H as [H | [H | H]]; try discriminate.
  now apply (H u).
Qed.

Lemma unreadable_video_is_not_uploaded_witness :
  let E :=
    {| http := sample_http accepted completes;
       st_size := None; file_data := None;
       netloc := fun u => Some u; quote := fun u => u;
       isoformat := fun _ => "" |} in
  exists s' t,
    upload_video E (logged_in 1) = (Ret None, s')
    /\ trace s' = (t ++ trace (logged_in 1))%list
    /\ count is_upload t = O.
Proof.
  intros E. apply (unreadable_video_is_not_uploaded E (logged_in 1)).
  left. reflexivity.
Defined.

(** ** The blob of a job that is already there *)

(** [get_completed_job_blob] does not look at the state the status answer
    reports: once the token is there it sends one status query and returns
    the [blob] found under [jobStatus] in a 200 answer, whatever state
    comes with it, and [None] when the answer is not a 200, is malformed
    or has no blob. *)
Theorem completed_job_blob_ignores_state
    (E : env) (job_id service_auth : pyval) (s s1 : state) :
  get_service_auth E (snd (log (GettingBlob job_id) s))
  = (Ret service_auth, s1) ->
  truthy service_auth = true ->
  exists s',
    get_completed_job_blob E job_id s
    = (Ret match job_status_of
                   (http E (ncalls s1) (GetJobStatus service_auth job_id))
           with
           | Some js =>
               if truthy (dict_get js "blob" PNone)
               then dict_get js "blob" PNone
               else PNone
           | None => PNone
           end, s')
    /\ effects (trace s')
       = Net (GetJobStatus service_auth job_id) :: effects (trace s1).
Proof.
  intros Hauth Htruthy.
  unfold get_completed_job_blob. unfold try_except.
  unfold bind at 1. unfold bind at 1.
  assert (Hlog : log (GettingBlob job_id) s
                 = (Ret tt, snd (log (GettingBlob job_id) s)))
    by reflexivity.
  rewrite Hlog. cbv beta iota. rewrite Hauth, Htruthy. cbn [negb].
  unfold job_status_of. unfold_monad. red_state.
  destruct (http E (ncalls s1) (GetJobStatus service_auth job_id))
    as [|code body]; red_state.
  { eexists. split; reflexivity. }
  destruct body as [b|]; red_state.
  2:{ destruct (code =? 200); eexists; split; reflexivity. }
  destruct b as [| | | | |d]; cbn [py_get]; red_state;
    try (destruct (code =? 200); eexists; split; reflexivity).
  destruct (code =? 200); red_state; [|eexists; split; reflexivity].
  destruct (dict_get d "jobStatus" (PDict [])) as [| | | | |js];
    cbn [py_get]; red_state; try (eexists; split; reflexivity).
  destruct (truthy (dict_get js "blob" PNone)); eexists; split; reflexivity.
Qed.

(** The job reports that it is still running, and carries a blob all the
    same: the blob is returned. *)
Lemma completed_job_blob_ignores_state_witness :
  fst (get_completed_job_blob
         (sample_env 1 accepted
            (fun _ => job_status "JOB_STATE_RUNNING" [("blob", sample_blob)]))
         (PStr "job-1") (logged_in 4))
  = Ret sample_blob.
Proof.
  destruct (completed_job_blob_ignores_state
              (sample_env 1 accepted
                 (fun _ =>
                    job_status "JOB_STATE_RUNNING" [("blob", sample_blob)]))
              (PStr "job-1") (PStr "service-token") (logged_in 4)
              (snd (get_service_auth
                      (sample_env 1 accepted
                         (fun _ =>
                            job_status "JOB_STATE_RUNNING"
                              [("blob", sample_blob)]))
                      (snd (log (GettingBlob (PStr "job-1")) (logged_in 4)))))
              eq_refl eq_refl)
    as (s' & Hrun & _).
  rewrite Hrun. reflexivity.
Defined.

(** ** When the publish step succeeds *)

Ltac unfold_monad_in H :=
  unfold json, new_client, log in H;
  unfold lift, bind, try_except, emit, sleep, time_now, get_access_token,
    get_did, get_handle, set_access_token, set_did, set_handle, send in H;
  unfold ret, raise in H;
  cbn [fst snd self_access_token self_did self_handle ncalls clock trace]
    in H.

(** Once the login has succeeded, the file is within the ceiling and the
    upload has returned a video result, [post_to_bluesky] returns [True]
    exactly when the [createRecord] request, which carries the record built
    from the description, the sunrise line and that video result, is
    answered with 200 and a non-empty JSON object.  Any other answer, an
    empty object or a body of another type included, makes it return
    [False]. *)
Theorem post_succeeds_on_record_answer
    (E : env) (cfg : bluesky_config) (description sunrise_time today : string)
    (s s1 s2 : state) (size : Z) (video_result : list (string * pyval)) :
  cfg_handle cfg <> "handle.bsky.social" ->
  cfg_password cfg <> "" ->
  create_session E (cfg_handle cfg) (cfg_password cfg)
    (snd ((new_client ;; log LoggingIn) s)) = (Ret true, s1) ->
  st_size E = Some size ->
  size <= size_ceiling ->
  upload_video E (snd (log (UploadingVideo size) s1))
  = (Ret (Some video_result), s2) ->
  fst (post_to_bluesky E cfg description sunrise_time today s)
  = Ret match
          http E (ncalls s2)
            (CreateRecord (self_access_token s2) (self_did s2)
               (build_record
                  (description ++ newline ++ newline ++ "Sunrise: "
                   ++ sunrise_time ++ " " ++ today)
                  video_result "Southampton sunrise timelapse"
                  (isoformat E (clock s2))))
        with
        | Reply code (Some (PDict (_ :: _))) => code =? 200
        | _ => false
        end.
Proof.
  intros Hh Hp Hlogin Hsize Hle Hup.
  unfold post_to_bluesky.
  apply String.eqb_neq in Hh, Hp. rewrite Hh, Hp. cbn [orb].
  assert (Hlt : (size_ceiling <? size) = false) by (apply Z.ltb_ge; lia).
  unfold_monad_in Hlogin. unfold_monad_in Hup.
  unfold_monad. red_state.
  rewrite Hlogin. cbn [negb]. rewrite Hsize, Hlt. red_state.
  destruct s1 as [tok1 did1 handle1 n1 c1 t1].
  cbn [self_access_token self_did self_handle ncalls clock trace] in Hup |- *.
  rewrite Hup. red_state.
  unfold create_post_with_video. unfold_monad. red_state.
  match goal with
  | |- context [http E ?n ?r] => destruct (http E n r) as [|code body]
  end; red_state; [reflexivity|].
  destruct (code =? 200); red_state.
  2:{ destruct body as [[| | | | |[|kv d]]|]; reflexivity. }
  destruct body as [b|]; red_state; [|reflexivity].
  destruct b as [|[]|z|str|l|d]; cbn [truthy py_get]; red_state;
    try reflexivity.
  - destruct (negb (z =? 0)); reflexivity.
  - destruct (negb (str =? "")%string); reflexivity.
  - destruct l; reflexivity.
  - destruct d as [|kv d]; [reflexivity|]. red_state.
    cbn [py_index].
    destruct (truthy (self_handle s2)); cbn [andb]; red_state;
      [|reflexivity].
    destruct (lookup (kv :: d) "uri") as [[]|]; reflexivity.
Qed.

Lemma post_succeeds_on_record_answer_witness :
  fst (post_to_bluesky (sample_env 20971520 accepted completes) sample_config
         "Dawn over the harbor" "04:31:00" "2025-08-03" (initial_state 0))
  = Ret true.
Proof.
  rewrite (post_succeeds_on_record_answer
             (sample_env 20971520 accepted completes) sample_config
             "Dawn over the harbor" "04:31:00" "2025-08-03" (initial_state 0)
             (snd (create_session (sample_env 20971520 accepted completes)
                     "dawn.bsky.social" "app-password"
                     (snd ((new_client ;; log LoggingIn) (initial_state 0)))))
             (snd (upload_video (sample_env 20971520 accepted completes)
                     (snd (log (UploadingVideo 20971520)
                             (snd (create_session
                                     (sample_env 20971520 accepted completes)
                                     "dawn.bsky.social" "app-password"
                                     (snd ((new_client ;; log LoggingIn)
                                             (initial_state 0)))))))))
             20971520
             (video_result_of sample_blob (PStr "job-1"))).
  - vm_compute. reflexivity.
  - discriminate.
  - discriminate.
  - vm_compute. reflexivity.
  - reflexivity.
  - discriminate.
  - vm_compute. reflexivity.
Defined.

(** ** Clean-up of old files *)

Section Sweep.

Variable C : cleanup_env.
Variable fails : string -> bool.
Variable pre : string.
Variable line : string -> cleanup_msg.
Variable cutoff_date : Z.

Lemma unlink_some (item : string) (names names' : list string) :
  unlink fails item names = Some names' ->
  fails item = false
  /\ In item names
  /\ names' = filter (fun n => negb (n =? item)%string) names.
Proof.
  unfold unlink.
  destruct (fails item); cbn [orb]; [discriminate|].
  destruct (existsb (String.eqb item) names) eqn:Hex; cbn [negb];
    [|discriminate].
  intros [= <-]. repeat split.
  apply existsb_exists in Hex. destruct Hex as (x & Hx & Heq).
  apply String.eqb_eq in Heq. now subst.
Qed.

Lemma unlink_succeeds (item : string) (names : list string) :
  fails item = false -> In item names ->
  unlink fails item names
  = Some (filter (fun n => negb (n =? item)%string) names).
Proof.
  intros Hf Hin. unfold unlink. rewrite Hf. cbn [orb].
  assert (Hex : existsb (String.eqb item) names = true).
  { apply existsb_exists. exists item. split; [assumption|].
    apply String.eqb_refl. }
  rewrite Hex. reflexivity.
Qed.

(** One pass of the loop body, by the test on the name. *)
Lemma sweep_step (item : string) (rest : list string) (st : sweep_state) :
  sweep C fails pre line cutoff_date (item :: rest) st
  = if old_name C pre cutoff_date item then
      match unlink fails item (entries st) with
      | None => (Raise, st)
      | Some names =>
          sweep C fails pre line cutoff_date rest
            {| entries := names; removed := S (removed st);
               lines := line item :: lines st |}
      end
    else sweep C fails pre line cutoff_date rest st.
Proof.
  cbn [sweep]. unfold old_name, file_date.
  destruct (strptime C (remove_all pre (stem item))) as [d|]; [|reflexivity].
  destruct (d <? cutoff_date); reflexivity.
Qed.

(** A loop leaves in the directory only names that were there, and takes
    out only names it was given and found old. *)
Lemma sweep_safe (items : list string) :
  forall st,
    (forall n, In n (entries (snd (sweep C fails pre line cutoff_date items st)))
               -> In n (entries st))
    /\ (forall n,
          In n (entries st) ->
          ~ In n (entries (snd (sweep C fails pre line cutoff_date items st))) ->
          In n items /\ old_name C pre cutoff_date n = true).
Proof.
  induction items as [|item rest IH]; intros st.
  - cbn [sweep snd]. split; [auto|]. intros n Hin Hout. contradiction.
  - rewrite sweep_step.
    destruct (old_name C pre cutoff_date item) eqn:Hold.
    2:{ destruct (IH st) as [H1 H2]. split; [exact H1|].
        intros n Hin Hout. destruct (H2 n Hin Hout). split; [now right|auto]. }
    destruct (unlink fails item (entries st)) as [names|] eqn:Hu.
    2:{ cbn [snd]. split; [auto|]. intros n Hin Hout. contradiction. }
    destruct (unlink_some _ _ _ Hu) as (_ & Hitem & ->).
    match goal with
    | |- context [sweep C fails pre line cutoff_date rest ?st1] =>
        destruct (IH st1) as [H1 H2]
    end.
    cbn [entries] in H1, H2. split.
    + intros n Hn. apply H1 in Hn. apply filter_In in Hn. tauto.
    + intros n Hin Hout.
      destruct (String.eqb_spec n item) as [->|Hne].
      * split; [now left | exact Hold].
      * assert (Hin' : In n (filter (fun n0 => negb (n0 =? item)%string)
                              (entries st))).
        { apply filter_In. split; [assumption|].
          apply negb_true_iff. now apply String.eqb_neq. }
        destruct (H2 n Hin' Hout). split; [now right|auto].
Qed.

Lemma filter_after_unlink (item : string) (rest names : list string) :
  old_name C pre cutoff_date item = true ->
  filter (fun n => negb (existsb (String.eqb n) rest
                         && old_name C pre cutoff_date n))
    (filter (fun n => negb (n =? item)%string) names)
  = filter (fun n => negb (existsb (String.eqb n) (item :: rest)
                           && old_name C pre cutoff_date n))
      names.
Proof.
  intros Hold. induction names as [|n l IHl]; [reflexivity|].
  cbn [filter existsb].
  destruct (String.eqb_spec n item) as [->|Hne]; cbn [negb orb andb].
  - rewrite Hold. cbn [negb]. exact IHl.
  - cbn [filter]. rewrite IHl. reflexivity.
Qed.

(** When the names given are distinct names of the directory and [unlink]
    works for the old ones, the loop ends normally and has taken out
    exactly the old names among them. *)
Lemma sweep_exact (items : list string) :
  NoDup items ->
  forall st,
    (forall i, In i items -> In i (entries st)) ->
    (forall i, In i items -> old_name C pre cutoff_date i = true ->
               fails i = false) ->
    exists st',
      sweep C fails pre line cutoff_date items st = (Ret tt, st')
      /\ entries st'
         = filter (fun n => negb (existsb (String.eqb n) items
                                  && old_name C pre cutoff_date n))
             (entries st).
Proof.
  induction 1 as [|item rest Hnotin Hnodup IH]; intros st Hin Hok.
  - exists st. split; [reflexivity|]. cbn [existsb andb negb].
    symmetry. apply forallb_filter_id. now apply forallb_forall.
  - rewrite sweep_step.
    assert (Hrest :
              forall st1,
                (forall i, In i rest -> In i (entries st1)) ->
                exists st',
                  sweep C fails pre line cutoff_date rest st1 = (Ret tt, st')
                  /\ entries st'
                     = filter (fun n => negb (existsb (String.eqb n) rest
                                              && old_name C pre cutoff_date n))
                         (entries st1)).
    { intros st1 H1. apply IH; [exact H1|].
      intros i Hi. apply Hok. now right. }
    destruct (old_name C pre cutoff_date item) eqn:Hold.
    2:{ destruct (Hrest st) as (st' & Hrun & Hent).
        { intros i Hi. apply Hin. now right. }
        exists st'. split; [exact Hrun|]. rewrite Hent.
        apply filter_ext. intros n. cbn [existsb].
        destruct (String.eqb_spec n item) as [->|_]; [|reflexivity].
        cbn [orb]. rewrite Hold. now rewrite !andb_false_r. }
    rewrite (unlink_succeeds item (entries st)
               (Hok item (or_introl eq_refl) Hold)
               (Hin item (or_introl eq_refl))).
    match goal with
    | |- context [sweep C fails pre line cutoff_date rest ?st1] =>
        destruct (Hrest st1) as (st' & Hrun & Hent)
    end.
    { cbn [entries]. intros i Hi. apply filter_In.
      split; [apply Hin; now right|].
      apply negb_true_iff. apply String.eqb_neq. intros ->. contradiction. }
    exists st'. split; [exact Hrun|]. rewrite Hent. cbn [entries].
    now apply filter_after_unlink.
Qed.

(** An old name that cannot be unlinked makes the loop raise. *)
Lemma sweep_raises (items : list string) :
  forall st,
    (exists i, In i items /\ old_name C pre cutoff_date i = true
               /\ fails i = true) ->
    fst (sweep C fails pre line cutoff_date items st) = Raise.
Proof.
  induction items as [|item rest IH]; intros st (i & Hi & Hold & Hf).
  - contradiction.
  - rewrite sweep_step. destruct Hi as [<-|Hi].
    + rewrite Hold. unfold unlink. rewrite Hf. reflexivity.
    + assert (Hex : exists i, In i rest /\ old_name C pre cutoff_date i = true
                              /\ fails i = true)
        by (exists i; auto).
      destruct (old_name C pre cutoff_date item); [|now apply IH].
      destruct (unlink fails item (entries st)); [now apply IH | reflexivity].
Qed.

End Sweep.

Lemma sweep_nothing_old (C : cleanup_env) (fails : string -> bool)
    (pre : string) (line : string -> cleanup_msg) (cutoff_date : Z)
    (items : list string) (st : sweep_state) :
  (forall i, In i items -> old_name C pre cutoff_date i = false) ->
  sweep C fails pre line cutoff_date items st = (Ret tt, st).
Proof.
  induction items as [|item rest IH]; intros H; [reflexivity|].
  rewrite sweep_step, (H item (or_introl eq_refl)).
  apply IH. intros i Hi. apply H. now right.
Qed.

Lemma existsb_filter_mem (f : string -> bool) (names : list string)
    (n : string) :
  In n names -> existsb (String.eqb n) (filter f names) = f n.
Proof.
  intros Hin. destruct (f n) eqn:Hf.
  - apply existsb_exists. exists n. split; [|apply String.eqb_refl].
    apply filter_In. auto.
  - destruct (existsb (String.eqb n) (filter f names)) eqn:Hex;
      [|reflexivity].
    apply existsb_exists in Hex. destruct Hex as (x & Hx & Heq).
    apply String.eqb_eq in Heq. subst x.
    apply filter_In in Hx. destruct Hx as [_ Hx]. congruence.
Qed.

Lemma filter_twice (f g : string -> bool) (l : list string) :
  filter g (filter f l) = filter (fun n => f n && g n) l.
Proof.
  induction l as [|n l IH]; [reflexivity|]. cbn [filter].
  destruct (f n); cbn [filter andb]; [|exact IH].
  destruct (g n); now rewrite IH.
Qed.

(** One loop of the clean-up over the names its glob yields, when the
    names of the directory are distinct and [unlink] works for the expired
    ones: exactly the expired names leave the directory. *)
Lemma sweep_glob_exact (C : cleanup_env) (cfg : cleanup_config)
    (fails : string -> bool) (pre suf : string)
    (line : string -> cleanup_msg) (names : list string) (k : nat)
    (log : list cleanup_msg) :
  NoDup names ->
  (forall n, In n names -> expired C cfg pre suf n = true -> fails n = false) ->
  exists st',
    sweep C fails pre line (date_today C - keep_days cfg)
      (filter (glob_match pre suf) names)
      {| entries := names; removed := k; lines := log |}
    = (Ret tt, st')
    /\ entries st' = filter (fun n => negb (expired C cfg pre suf n)) names.
Proof.
  intros Hnodup Hok.
  destruct (sweep_exact C fails pre line (date_today C - keep_days cfg)
              (filter (glob_match pre suf) names)
              (NoDup_filter _ Hnodup)
              {| entries := names; removed := k; lines := log |})
    as (st' & Hrun & Hent).
  - intros i Hi. apply filter_In in Hi. cbn [entries]. tauto.
  - intros i Hi Hold. apply filter_In in Hi. destruct Hi as [Hi Hg].
    apply Hok; [assumption|]. unfold expired, stale. now rewrite Hg, Hold.
  - exists st'. split; [exact Hrun|]. rewrite Hent. cbn [entries].
    apply filter_ext_in. intros n Hn.
    rewrite (existsb_filter_mem _ _ _ Hn). reflexivity.
Qed.

Lemma date_minus_days_some (day d c : Z) :
  date_minus_days day d = Some c -> c = day - d.
Proof.
  unfold date_minus_days.
  destruct ((Z.abs d <=? 999999999) && (1 <=? day - d)
            && (day - d <=? 3652059)); congruence.
Qed.

(** The clean-up removes nothing but expired files, whatever happens on
    the way: a name that was in a directory and is not there afterwards
    matches one of the patterns of that directory and carries a date
    earlier than today minus [keep_days]; and no name is added.  So files
    of the last [keep_days] days, files whose date does not parse and
    files of other names are always kept. *)
Theorem cleanup_removes_only_expired
    (C : cleanup_env) (cfg : cleanup_config) (dirs : directories) :
  let dirs' := snd (fst (cleanup_old_files C cfg dirs)) in
  (forall n, In n (raw_dir dirs') -> In n (raw_dir dirs))
  /\ (forall n, In n (video_dir dirs') -> In n (video_dir dirs))
  /\ (forall n,
        In n (raw_dir dirs) -> ~ In n (raw_dir dirs') ->
        auto_cleanup cfg = true
        /\ (expired C cfg "sunrise_raw_" ".h264" n = true
            \/ expired C cfg "analysis_photo_" ".jpg" n = true))
  /\ (forall n,
        In n (video_dir dirs) -> ~ In n (video_dir dirs') ->
        auto_cleanup cfg = true
        /\ expired C cfg "sunrise_" ".mp4" n = true).
Proof.
  cbv zeta. unfold cleanup_old_files.
  destruct (auto_cleanup cfg); cbn [negb].
  2:{ cbn [fst snd]. repeat split; auto; contradiction. }
  destruct (date_minus_days (date_today C) (keep_days cfg)) as [cutoff|]
    eqn:Hcut.
  2:{ cbn [fst snd]. repeat split; auto; contradiction. }
  apply date_minus_days_some in Hcut. subst cutoff.
  pose proof (sweep_safe C (raw_unlink_fails C) "sunrise_raw_" RemovedRawVideo
                (date_today C - keep_days cfg)
                (filter (glob_match "sunrise_raw_" ".h264") (raw_dir dirs))
                {| entries := raw_dir dirs; removed := O;
                   lines := [CleaningUp (keep_days cfg)] |}) as [Ha1 Ha2].
  destruct (sweep C (raw_unlink_fails C) "sunrise_raw_" RemovedRawVideo _ _ _)
    as [o1 raw1].
  cbn [snd entries] in Ha1, Ha2.
  assert (Hraw1 : forall n, In n (raw_dir dirs) -> ~ In n (entries raw1) ->
                            expired C cfg "sunrise_raw_" ".h264" n = true).
  { intros n Hin Hout. destruct (Ha2 n Hin Hout) as [Hi Hold].
    apply filter_In in Hi. unfold expired, stale.
    destruct Hi as [_ ->]. exact Hold. }
  destruct o1 as [[]|].
  2:{ cbn [fst snd raw_dir video_dir].
      repeat split; auto; try contradiction. }
  pose proof (sweep_safe C (raw_unlink_fails C) "analysis_photo_" RemovedPhoto
                (date_today C - keep_days cfg)
                (filter (glob_match "analysis_photo_" ".jpg") (entries raw1))
                {| entries := entries raw1; removed := O;
                   lines := lines raw1 |}) as [Hb1 Hb2].
  destruct (sweep C (raw_unlink_fails C) "analysis_photo_" RemovedPhoto _ _ _)
    as [o2 raw2].
  cbn [snd entries] in Hb1, Hb2.
  assert (Hraw2 : forall n, In n (raw_dir dirs) -> ~ In n (entries raw2) ->
                            expired C cfg "sunrise_raw_" ".h264" n = true
                            \/ expired C cfg "analysis_photo_" ".jpg" n = true).
  { intros n Hin Hout.
    destruct (in_dec string_dec n (entries raw1)) as [Hin1|Hout1].
    - right. destruct (Hb2 n Hin1 Hout) as [Hi Hold].
      apply filter_In in Hi. unfold expired, stale.
      destruct Hi as [_ ->]. exact Hold.
    - left. now apply Hraw1. }
  destruct o2 as [[]|].
  2:{ cbn [fst snd raw_dir video_dir].
      repeat split; auto; try contradiction. }
  pose proof (sweep_safe C (video_unlink_fails C) "sunrise_" RemovedVideo
                (date_today C - keep_days cfg)
                (filter (glob_match "sunrise_" ".mp4") (video_dir dirs))
                {| entries := video_dir dirs; removed := O;
                   lines := lines raw2 |}) as [Hc1 Hc2].
  destruct (sweep C (video_unlink_fails C) "sunrise_" RemovedVideo _ _ _)
    as [o3 vid].
  cbn [snd entries] in Hc1, Hc2.
  assert (Hvid : forall n, In n (video_dir dirs) -> ~ In n (entries vid) ->
                           expired C cfg "sunrise_" ".mp4" n = true).
  { intros n Hin Hout. destruct (Hc2 n Hin Hout) as [Hi Hold].
    apply filter_In in Hi. unfold expired, stale.
    destruct Hi as [_ ->]. exact Hold. }
  destruct o3 as [[]|]; cbn [fst snd raw_dir video_dir];
    repeat split; auto.
Qed.

(** The clean-up when nothing stands in its way: the cut-off date exists,
    the names of each directory are distinct and [unlink] works for the
    expired files.  Then it ends normally and exactly the expired names
    have left the two directories. *)
Lemma cleanup_exact
    (C : cleanup_env) (cfg : cleanup_config) (dirs : directories)
    (cutoff : Z) :
  auto_cleanup cfg = true ->
  date_minus_days (date_today C) (keep_days cfg) = Some cutoff ->
  NoDup (raw_dir dirs) ->
  NoDup (video_dir dirs) ->
  (forall n, In n (raw_dir dirs) ->
     expired C cfg "sunrise_raw_" ".h264" n = true
     \/ expired C cfg "analysis_photo_" ".jpg" n = true ->
     raw_unlink_fails C n = false) ->
  (forall n, In n (video_dir dirs) ->
     expired C cfg "sunrise_" ".mp4" n = true ->
     video_unlink_fails C n = false) ->
  fst (cleanup_old_files C cfg dirs)
  = (Ret tt,
     {| raw_dir :=
          filter (fun n => negb (expired C cfg "sunrise_raw_" ".h264" n)
                           && negb (expired C cfg "analysis_photo_" ".jpg" n))
            (raw_dir dirs);
        video_dir :=
          filter (fun n => negb (expired C cfg "sunrise_" ".mp4" n))
            (video_dir dirs) |}).
Proof.
  intros Hauto Hcut Hraw Hvid Hrawok Hvidok.
  unfold cleanup_old_files. rewrite Hauto, Hcut. cbn [negb].
  apply date_minus_days_some in Hcut. subst cutoff.
  destruct (sweep_glob_exact C cfg (raw_unlink_fails C) "sunrise_raw_" ".h264"
              RemovedRawVideo (raw_dir dirs) O [CleaningUp (keep_days cfg)]
              Hraw)
    as (raw1 & -> & Hent1).
  { intros n Hn He. apply Hrawok; auto. }
  destruct (sweep_glob_exact C cfg (raw_unlink_fails C) "analysis_photo_"
              ".jpg" RemovedPhoto (entries raw1) O (lines raw1))
    as (raw2 & -> & Hent2).
  { rewrite Hent1. now apply NoDup_filter. }
  { intros n Hn He. rewrite Hent1 in Hn. apply filter_In in Hn.
    apply Hrawok; tauto. }
  destruct (sweep_glob_exact C cfg (video_unlink_fails C) "sunrise_" ".mp4"
              RemovedVideo (video_dir dirs) O (lines raw2) Hvid Hvidok)
    as (vid & -> & Hent3).
  cbn [fst]. rewrite Hent3, Hent2, Hent1, filter_twice. reflexivity.
Qed.

(** When the names of each directory are distinct and [unlink] works for
    the expired files, the clean-up does one of two things.  If today
    minus [keep_days] is a date, it ends normally and removes every
    expired file: the raw directory keeps exactly the names that are
    neither an expired raw video nor an expired analysis photo, the video
    directory exactly the names that are not an expired final video.  If
    it is not (the [keep_days] of a configuration meant to keep
    everything, say), the subtraction raises [OverflowError] and the
    function ends with that exception, before it has logged or removed
    anything. *)
Theorem cleanup_removes_every_expired
    (C : cleanup_env) (cfg : cleanup_config) (dirs : directories) :
  auto_cleanup cfg = true ->
  NoDup (raw_dir dirs) ->
  NoDup (video_dir dirs) ->
  (forall n, In n (raw_dir dirs) ->
     expired C cfg "sunrise_raw_" ".h264" n = true
     \/ expired C cfg "analysis_photo_" ".jpg" n = true ->
     raw_unlink_fails C n = false) ->
  (forall n, In n (video_dir dirs) ->
     expired C cfg "sunrise_" ".mp4" n = true ->
     video_unlink_fails C n = false) ->
  if (Z.abs (keep_days cfg) <=? 999999999)
     && (1 <=? date_today C - keep_days cfg)
     && (date_today C - keep_days cfg <=? 3652059)
  then
    fst (cleanup_old_files C cfg dirs)
    = (Ret tt,
       {| raw_dir :=
            filter (fun n => negb (expired C cfg "sunrise_raw_" ".h264" n)
                             && negb (expired C cfg "analysis_photo_" ".jpg"
                                        n))
              (raw_dir dirs);
          video_dir :=
            filter (fun n => negb (expired C cfg "sunrise_" ".mp4" n))
              (video_dir dirs) |})
  else cleanup_old_files C cfg dirs = (Raise, dirs, []).
Proof.
  intros Hauto Hraw Hvid Hrawok Hvidok.
  destruct ((Z.abs (keep_days cfg) <=? 999999999)
            && (1 <=? date_today C - keep_days cfg)
            && (date_today C - keep_days cfg <=? 3652059)) eqn:Hrange.
  - apply (cleanup_exact C cfg dirs (date_today C - keep_days cfg)); auto.
    unfold date_minus_days. now rewrite Hrange.
  - unfold cleanup_old_files, date_minus_days.
    now rewrite Hauto, Hrange.
Qed.

Lemma cleanup_removes_every_expired_witness :
  fst (cleanup_old_files sample_cleanup_env sample_cleanup_config
         sample_directories)
  = (Ret tt,
     {| raw_dir := ["sunrise_raw_2025-08-09.h264";
                    "analysis_photo_2025-08-10.jpg"; "notes.txt";
                    "sunrise_raw_test.h264"];
        video_dir := ["sunrise_2025-08-03.mp4"; "sunrise_2025-08-10.mp4";
                      "sunrise_raw_2025-08-01.mp4";
                      "holiday_2025-07-20.mp4"] |}).
Proof.
  assert (Hnodup_raw : NoDup (raw_dir sample_directories))
    by (repeat constructor; cbn; intuition discriminate).
  assert (Hnodup_video : NoDup (video_dir sample_directories))
    by (repeat constructor; cbn; intuition discriminate).
  exact (cleanup_removes_every_expired sample_cleanup_env
           sample_cleanup_config sample_directories eq_refl
           Hnodup_raw Hnodup_video (fun _ _ _ => eq_refl)
           (fun _ _ _ => eq_refl)).
Defined.

(** After a clean-up that removed every expired file, a second one finds
    nothing to do: it ends normally, leaves both directories as they are
    and logs nothing but its opening line; it does so even when no file
    can be unlinked any more.  The first run has to get as far as the
    files: today minus [keep_days] must be a date. *)
Theorem cleanup_twice_changes_nothing
    (C C2 : cleanup_env) (cfg : cleanup_config) (dirs : directories)
    (cutoff : Z) :
  auto_cleanup cfg = true ->
  date_minus_days (date_today C) (keep_days cfg) = Some cutoff ->
  NoDup (raw_dir dirs) ->
  NoDup (video_dir dirs) ->
  (forall n, In n (raw_dir dirs) ->
     expired C cfg "sunrise_raw_" ".h264" n = true
     \/ expired C cfg "analysis_photo_" ".jpg" n = true ->
     raw_unlink_fails C n = false) ->
  (forall n, In n (video_dir dirs) ->
     expired C cfg "sunrise_" ".mp4" n = true ->
     video_unlink_fails C n = false) ->
  date_today C2 = date_today C ->
  strptime C2 = strptime C ->
  let dirs' := snd (fst (cleanup_old_files C cfg dirs)) in
  cleanup_old_files C2 cfg dirs'
  = (Ret tt, dirs', [CleaningUp (keep_days cfg)]).
Proof.
  intros Hauto Hcut Hraw Hvid Hrawok Hvidok Htoday Hparse dirs'.
  subst dirs'.
  rewrite (cleanup_exact C cfg dirs cutoff
             Hauto Hcut Hraw Hvid Hrawok Hvidok).
  cbn [snd].
  assert (Hexp : forall pre suf n,
             expired C2 cfg pre suf n = expired C cfg pre suf n).
  { intros pre suf n. unfold expired, stale, old_name, file_date.
    now rewrite Htoday, Hparse. }
  unfold cleanup_old_files. rewrite Hauto, Htoday, Hcut.
  cbn [negb raw_dir video_dir].
  apply date_minus_days_some in Hcut. rewrite <- Htoday in Hcut.
  subst cutoff.
  rewrite sweep_nothing_old.
  2:{ intros i Hi. apply filter_In in Hi. destruct Hi as [Hi Hg].
      apply filter_In in Hi. destruct Hi as [_ Hi].
      apply andb_true_iff in Hi. destruct Hi as [Hi _].
      apply negb_true_iff in Hi. rewrite <- Hexp in Hi.
      unfold expired, stale in Hi. now rewrite Hg in Hi. }
  cbn [entries lines removed].
  rewrite sweep_nothing_old.
  2:{ intros i Hi. apply filter_In in Hi. destruct Hi as [Hi Hg].
      apply filter_In in Hi. destruct Hi as [_ Hi].
      apply andb_true_iff in Hi. destruct Hi as [_ Hi].
      apply negb_true_iff in Hi. rewrite <- Hexp in Hi.
      unfold expired, stale in Hi. now rewrite Hg in Hi. }
  cbn [entries lines removed].
  rewrite sweep_nothing_old.
  2:{ intros i Hi. apply filter_In in Hi. destruct Hi as [Hi Hg].
      apply filter_In in Hi. destruct Hi as [_ Hi].
      apply negb_true_iff in Hi. rewrite <- Hexp in Hi.
      unfold expired, stale in Hi. now rewrite Hg in Hi. }
  reflexivity.
Qed.

Lemma cleanup_twice_changes_nothing_witness :
  let dirs' :=
    snd (fst (cleanup_old_files sample_cleanup_env sample_cleanup_config
                sample_directories)) in
  cleanup_old_files
    {| date_today := 739473; strptime := sample_strptime;
       raw_unlink_fails := fun _ => true;
       video_unlink_fails := fun _ => true |}
    sample_cleanup_config dirs'
  = (Ret tt, dirs', [CleaningUp 7]).
Proof.
  apply (cleanup_twice_changes_nothing sample_cleanup_env
           {| date_today := 739473; strptime := sample_strptime;
              raw_unlink_fails := fun _ => true;
              video_unlink_fails := fun _ => true |}
           sample_cleanup_config sample_directories 739466).
  - reflexivity.
  - reflexivity.
  - repeat constructor; cbn; intuition discriminate.
  - repeat constructor; cbn; intuition discriminate.
  - reflexivity.
  - reflexivity.
  - reflexivity.
  - reflexivity.
Defined.

(** An [OSError] of [unlink] is not caught by the clean-up: when an
    expired raw video cannot be unlinked, [cleanup_old_files] raises, and
    the video directory has not been touched. *)
Theorem cleanup_stops_at_unlink_error
    (C : cleanup_env) (cfg : cleanup_config) (dirs : directories)
    (name : string) :
  auto_cleanup cfg = true ->
  In name (raw_dir dirs) ->
  expired C cfg "sunrise_raw_" ".h264" name = true ->
  raw_unlink_fails C name = true ->
  fst (fst (cleanup_old_files C cfg dirs)) = Raise
  /\ video_dir (snd (fst (cleanup_old_files C cfg dirs))) = video_dir dirs.
Proof.
  intros Hauto Hin Hexp Hfail.
  unfold cleanup_old_files. rewrite Hauto. cbn [negb].
  destruct (date_minus_days (date_today C) (keep_days cfg)) as [cutoff|]
    eqn:Hcut; [|split; reflexivity].
  apply date_minus_days_some in Hcut. subst cutoff.
  pose proof (sweep_raises C (raw_unlink_fails C) "sunrise_raw_"
                RemovedRawVideo (date_today C - keep_days cfg)
                (filter (glob_match "sunrise_raw_" ".h264") (raw_dir dirs))
                {| entries := raw_dir dirs; removed := O;
                   lines := [CleaningUp (keep_days cfg)] |}) as Hraise.
  destruct (sweep C (raw_unlink_fails C) "sunrise_raw_" RemovedRawVideo _ _ _)
    as [o1 raw1].
  cbn [fst] in Hraise. rewrite Hraise.
  - split; reflexivity.
  - exists name. unfold expired, stale in Hexp.
    apply andb_true_iff in Hexp. destruct Hexp as [Hg Hold].
    repeat split; auto. apply filter_In. auto.
Qed.

Lemma cleanup_stops_at_unlink_error_witness :
  let C :=
    {| date_today := 739473; strptime := sample_strptime;
       raw_unlink_fails := fun _ => true;
       video_unlink_fails := fun _ => false |} in
  fst (fst (cleanup_old_files C sample_cleanup_config sample_directories))
  = Raise
  /\ video_dir (snd (fst (cleanup_old_files C sample_cleanup_config
                            sample_directories)))
     = video_dir sample_directories.
Proof.
  intros C.
  apply (cleanup_stops_at_unlink_error C sample_cleanup_config
           sample_directories "sunrise_raw_2025-08-01.h264").
  - reflexivity.
  - left. reflexivity.
  - reflexivity.
  - reflexivity.
Defined.

(** ** The description of the photo *)

(** [generate_ai_description] returns either the fallback sentence or the
    stripped text of a 200 answer whose JSON has a string at
    [choices[0].message.content]; it sends at most one request, and none
    when the key is empty or the placeholder, or when the photo cannot be
    read. *)
Theorem description_is_reply_or_fallback (A : ai_env) (groq_key : string) :
  (fst (generate_ai_description A groq_key) = fallback_description
   \/ exists image result content,
        groq_key <> ""%string /\ groq_key <> "api_key"%string
        /\ image_data A = Some image
        /\ groq_http A groq_key
             ("data:image/jpeg;base64," ++ b64encode A image)%string
           = Reply 200 (Some result)
        /\ chat_content result = Some (PStr content)
        /\ fst (generate_ai_description A groq_key) = str_strip A content)
  /\ (List.length (filter is_groq_request
                (snd (generate_ai_description A groq_key))) <= 1)%nat
  /\ (groq_key = ""%string \/ groq_key = "api_key"%string
      \/ image_data A = None ->
      filter is_groq_request (snd (generate_ai_description A groq_key))
      = []).
Proof.
  unfold generate_ai_description.
  destruct (groq_key =? "")%string eqn:Hempty;
    [cbn; repeat split; auto|].
  destruct (groq_key =? "api_key")%string eqn:Hplace;
    [cbn; repeat split; auto|].
  apply String.eqb_neq in Hempty, Hplace. cbn [orb].
  destruct (image_data A) as [image|] eqn:Himg;
    [|cbn; repeat split; auto].
  assert (Hnone : groq_key = ""%string \/ groq_key = "api_key"%string
                  \/ Some image = None -> False)
    by (intros [H|[H|H]]; [contradiction|contradiction|discriminate]).
  cbv zeta.
  destruct (groq_http A groq_key _) as [|code body] eqn:Hreply;
    [cbn; repeat split; auto; intros H; destruct (Hnone H)|].
  destruct (code =? 200) eqn:Hcode;
    [|cbn; repeat split; auto; intros H; destruct (Hnone H)].
  apply Z.eqb_eq in Hcode. subst code.
  destruct body as [result|];
    [|cbn; repeat split; auto; intros H; destruct (Hnone H)].
  destruct (chat_content result) as [[| | |content| |]|] eqn:Hcontent;
    try (cbn; repeat split; auto; intros H; destruct (Hnone H)).
  cbn [fst snd filter is_groq_request List.length].
  split; [|split; [auto|intros H; destruct (Hnone H)]].
  right. exists image, result, content. repeat split; auto.
Qed.

(** ** The whole run *)

(** [main] reports success exactly when the capture and ffmpeg produced a
    video file that exists and the clean-up ended without an exception:
    neither the answer of Bluesky, the configuration of the account, nor
    the description step takes part in the result. *)
Theorem main_result_ignores_posting
    (W : studio) (E : env) (A : ai_env) (C : cleanup_env)
    (cfg : bluesky_config) (groq_key : string) (ccfg : cleanup_config)
    (dirs : directories) (s : state) :
  fst (main W E A C cfg groq_key ccfg dirs s) = true
  <-> exists raw final,
        capture_video W = Ret (Some raw)
        /\ timelapse_video W raw = Ret (Some final)
        /\ final_exists W = true
        /\ fst (fst (cleanup_old_files C ccfg dirs)) = Ret tt.
Proof.
  unfold main.
  destruct (capture_video W) as [[raw|]|];
    try (cbn; split; [discriminate|intros (? & ? & ? & _); discriminate]).
  destruct (timelapse_video W raw) as [[final|]|] eqn:Htl;
    try (cbn; split;
         [discriminate
         |intros (r & f & Hr & Hf & _); inversion Hr; subst r;
          rewrite Htl in Hf; discriminate]).
  destruct (final_exists W);
    [|cbn; split; [discriminate|intros (? & ? & _ & _ & ? & _); discriminate]].
  cbv zeta.
  match goal with
  | |- context [post_to_bluesky E cfg ?d ?t ?y s] =>
      destruct (post_to_bluesky_spec E cfg d t y s)
        as (posted & s' & t' & -> & _)
  end.
  destruct (cleanup_old_files C ccfg dirs) as [[[[]|] dirs'] cleaned];
    cbn [fst].
  - split; [|reflexivity]. intros _. exists raw, final. auto.
  - split; [discriminate|]. intros (? & ? & _ & _ & _ & ?). discriminate.
Qed.

(** Without today's video [main] stops before the publication: if a run
    used the Bluesky client, asked for a description of the photo or
    called [cleanup_old_files], then the capture had returned a raw video
    and ffmpeg a final video that exists. *)
Theorem main_needs_video_to_post_or_clean
    (W : studio) (E : env) (A : ai_env) (C : cleanup_env)
    (cfg : bluesky_config) (groq_key : string) (ccfg : cleanup_config)
    (dirs : directories) (s : state) :
  bluesky (snd (main W E A C cfg groq_key ccfg dirs s)) <> s
  \/ ai_events (snd (main W E A C cfg groq_key ccfg dirs s)) <> []
  \/ cleaned (snd (main W E A C cfg groq_key ccfg dirs s)) <> None ->
  exists raw final,
    capture_video W = Ret (Some raw)
    /\ timelapse_video W raw = Ret (Some final)
    /\ final_exists W = true.
Proof.
  unfold main.
  destruct (capture_video W) as [[raw|]|];
    try (cbn; intros [H|[H|H]]; now destruct H).
  destruct (timelapse_video W raw) as [[final|]|] eqn:Htl;
    try (cbn; intros [H|[H|H]]; now destruct H).
  destruct (final_exists W);
    [|cbn; intros [H|[H|H]]; now destruct H].
  intros _. exists raw, final. auto.
Qed.

Lemma main_needs_video_to_post_or_clean_witness :
  exists raw final,
    capture_video sample_studio = Ret (Some raw)
    /\ timelapse_video sample_studio raw = Ret (Some final)
    /\ final_exists sample_studio = true.
Proof.
  apply (main_needs_video_to_post_or_clean sample_studio
           (sample_env 20971520 accepted completes) sample_ai_env
           sample_cleanup_env sample_config "gsk_1" sample_cleanup_config
           sample_directories (initial_state 0)).
  right. right. vm_compute. discriminate.
Defined.
